(** * CodeHunt-2026 backend: the phase-progression state machine

    A shallow embedding of [backend/server.js] (the Express request handlers
    and the in-memory [teamsDB] store) together with the properties the
    specification states about it.

    Conventions of the model
    - The store is the in-memory backend ([useFirebase = false]): a JS [Map],
      i.e. a key/value sequence in insertion order.
    - JSON request bodies are values of [JVal]; JSON numbers are integers
      ([Z]).  A field a handler only consumes as text is a [JVal] as well
      whenever the handler's behaviour depends on its dynamic type.
    - Strings are byte strings; [toUpperCase], [toLowerCase] and [trim] act on
      the ASCII range, which contains every marker, key and accepted answer
      of the program.
    - A handler is a function from the store and the request fields to the new
      store and the response ([res.status(..).json(..)]); an exception caught
      by the handler's [try/catch] is the 500 response. *)

From Stdlib Require Import ZArith List Bool String Ascii Lia PeanoNat.
From Stdlib Require Import Numbers.DecimalString.
Import ListNotations.

Set Warnings "-register-all".

Open Scope string_scope.
Open Scope list_scope.

(** ** JavaScript values and string primitives *)

Module JS.

Inductive JVal : Type :=
| JUndef
| JNull
| JBool (b : bool)
| JNum (z : Z)
| JStr (s : string)
| JArr (items : list JVal)
| JObj (fields : list (string * JVal)).
(* [JObj fields]: the own properties of a parsed JSON object, as
   [Object.entries] lists them; the keys of an object are distinct. *)

(** [ToBoolean]: what [!x], [x && ..] and [x || ..] test. *)
Definition truthy (v : JVal) : bool :=
  match v with
  | JUndef | JNull => false
  | JBool b => b
  | JNum z => negb (Z.eqb z 0)
  | JStr s => negb (String.eqb s "")
  | JArr _ | JObj _ => true
  end.

Definition nullish (v : JVal) : bool :=
  match v with
  | JUndef | JNull => true
  | _ => false
  end.

(** [x === n] for a number literal [n]. *)
Definition strictEqNum (v : JVal) (n : Z) : bool :=
  match v with
  | JNum z => Z.eqb z n
  | _ => false
  end.

(** [typeof x === 'object'] (true of [null] too). *)
Definition typeofObject (v : JVal) : bool :=
  match v with
  | JNull | JArr _ | JObj _ => true
  | _ => false
  end.

Fixpoint lookup {A : Type} (k : string) (l : list (string * A)) : option A :=
  match l with
  | [] => None
  | (k', v) :: r => if String.eqb k' k then Some v else lookup k r
  end.

Definition natToString (n : nat) : string :=
  NilEmpty.string_of_uint (Nat.to_uint n).

(** [String(i)] for an array index or a counter. *)
Definition indexKey (i : nat) : string := natToString i.

Fixpoint charAt (s : string) (i : nat) : option ascii :=
  match s, i with
  | EmptyString, _ => None
  | String c _, O => Some c
  | String _ r, S j => charAt r j
  end.

(** [v[i]] on a value that is neither [undefined] nor [null]. *)
Definition elemAt (v : JVal) (i : nat) : JVal :=
  match v with
  | JArr l => nth i l JUndef
  | JObj f => match lookup (indexKey i) f with Some x => x | None => JUndef end
  | JStr s => match charAt s i with Some c => JStr (String c "") | None => JUndef end
  | _ => JUndef
  end.

(** [v.k] for a named (non-index, non-builtin) property on a value that is
    neither [undefined] nor [null]. *)
Definition prop (v : JVal) (k : string) : JVal :=
  match v with
  | JObj f => match lookup k f with Some x => x | None => JUndef end
  | _ => JUndef
  end.

Fixpoint entriesFrom (i : nat) (l : list JVal) : list (string * JVal) :=
  match l with
  | [] => []
  | x :: r => (indexKey i, x) :: entriesFrom (S i) r
  end.

(** [Object.entries(v)] for an array or a plain object. *)
Definition objectEntries (v : JVal) : list (string * JVal) :=
  match v with
  | JObj f => f
  | JArr l => entriesFrom 0 l
  | _ => []
  end.

(** *** Characters *)

Definition dq : string := String (ascii_of_nat 34) "".

Definition isSpace (c : ascii) : bool :=
  let n := nat_of_ascii c in
  (((9 <=? n) && (n <=? 13)) || (n =? 32))%nat.

Definition upperChar (c : ascii) : ascii :=
  let n := nat_of_ascii c in
  if ((97 <=? n) && (n <=? 122))%nat then ascii_of_nat (n - 32) else c.

Definition lowerChar (c : ascii) : ascii :=
  let n := nat_of_ascii c in
  if ((65 <=? n) && (n <=? 90))%nat then ascii_of_nat (n + 32) else c.

Fixpoint mapString (f : ascii -> ascii) (s : string) : string :=
  match s with
  | EmptyString => EmptyString
  | String c r => String (f c) (mapString f r)
  end.

Definition toUpperCase : string -> string := mapString upperChar.
Definition toLowerCase : string -> string := mapString lowerChar.

Fixpoint trimStart (s : string) : string :=
  match s with
  | EmptyString => EmptyString
  | String c r => if isSpace c then trimStart r else s
  end.

Fixpoint trimEnd (s : string) : string :=
  match s with
  | EmptyString => EmptyString
  | String c r =>
      let r' := trimEnd r in
      if isSpace c && String.eqb r' "" then EmptyString else String c r'
  end.

Definition trim (s : string) : string := trimEnd (trimStart s).

Fixpoint startsWith (s p : string) : bool :=
  match p, s with
  | EmptyString, _ => true
  | String _ _, EmptyString => false
  | String a p', String b s' => Ascii.eqb a b && startsWith s' p'
  end.

(** [s.includes(p)] *)
Fixpoint includes (s p : string) : bool :=
  startsWith s p ||
  match s with
  | EmptyString => false
  | String _ r => includes r p
  end.

(** [s.split(',')] *)
Fixpoint splitComma (s : string) : list string :=
  match s with
  | EmptyString => [EmptyString]
  | String c r =>
      if Ascii.eqb c "," then EmptyString :: splitComma r
      else match splitComma r with
           | [] => [String c EmptyString]
           | h :: t => String c h :: t
           end
  end.

(** *** [parseInt(s)] with no radix argument; [None] is [NaN] *)

Definition digitVal (radix : Z) (c : ascii) : option Z :=
  let n := Z.of_nat (nat_of_ascii c) in
  let d :=
    (if (48 <=? n) && (n <=? 57) then n - 48
     else if (97 <=? n) && (n <=? 122) then n - 87
     else if (65 <=? n) && (n <=? 90) then n - 55
     else 36)%Z in
  if (d <? radix)%Z then Some d else None.

Fixpoint digitsPrefix (radix : Z) (s : string) (acc : option Z) : option Z :=
  match s with
  | EmptyString => acc
  | String c r =>
      match digitVal radix c with
      | Some d =>
          digitsPrefix radix r
            (Some (match acc with Some a => a * radix + d | None => d end))
      | None => acc
      end
  end%Z.

Definition parseInt (s : string) : option Z :=
  let s1 := trimStart s in
  let '(sign, s2) :=
    match s1 with
    | String "-" r => ((-1)%Z, r)
    | String "+" r => (1%Z, r)
    | _ => (1%Z, s1)
    end in
  let '(radix, s3) :=
    match s2 with
    | String "0" (String "x" r) => (16%Z, r)
    | String "0" (String "X" r) => (16%Z, r)
    | _ => (10%Z, s2)
    end in
  option_map (Z.mul sign) (digitsPrefix radix s3 None).

End JS.
Import JS.

(** ** The fixed question data ([QUESTIONS DATA] in server.js) *)

Module Content.

(** A quiz item of phase 2 or 3; [code] is absent on the phase-2 items. *)
Record Question : Type := {
  id : Z;
  code : option string;
  question : string;
  options : list string;
  correctAnswer : Z
}.

(** A phase-5 riddle: its [type] tag with the fields that tag carries. *)
Inductive RiddleKind : Type :=
| Mcq (options : list string) (correctAnswer : Z)
| Text (acceptedAnswers : list string).

Record Riddle : Type := {
  riddleId : Z;
  riddle : string;
  kind : RiddleKind
}.

Definition nl : string := String (ascii_of_nat 10) "".

(** The text whose lines are [l], separated by newline characters. *)
Definition lines (l : list string) : string := String.concat nl l.

Definition phase2Questions : list Question :=
  [
     {| id := 1;
       code := None;
       question := "Intelligent tutoring systems mainly provide:";
       options := ["Fixed lessons";
                    "Only video lectures";
                    "Personalized instruction";
                    "Manual grading"];
       correctAnswer := 2 |};
     {| id := 2;
       code := None;
       question := "AI grading tools help teachers by:";
       options := ["Automating assessment";
                    "Removing exams";
                    "Increasing workload";
                    "Preventing feedback"];
       correctAnswer := 0 |};
     {| id := 3;
       code := None;
       question := "Which technology enables real-time lecture transcription?";
       options := ["Computer Vision";
                    "Blockchain";
                    "Speech Recognition";
                    "Data Mining"];
       correctAnswer := 2 |};
     {| id := 4;
       code := None;
       question := "Adaptive learning platforms adjust based on:";
       options := ["Teacher salary";
                    "School building size";
                    "Internet speed";
                    "Student performance"];
       correctAnswer := 3 |};
     {| id := 5;
       code := None;
       question := "AI can identify struggling students through:";
       options := ["Random selection";
                    "Learning analytics";
                    "Manual counting";
                    "Attendance guessing"];
       correctAnswer := 1 |};
     {| id := 6;
       code := None;
       question := "Chatbots in education are useful for:";
       options := ["Cancelling homework";
                    "Closing libraries";
                    "Answering student queries 24/7";
                    "Replacing textbooks completely"];
       correctAnswer := 2 |};
     {| id := 7;
       code := None;
       question := "Which is a risk of AI in education?";
       options := ["Faster feedback";
                    "Personalized study";
                    "Better accessibility";
                    "Algorithmic bias"];
       correctAnswer := 3 |};
     {| id := 8;
       code := None;
       question := "AI translation tools help students by:";
       options := ["Removing teachers";
                    "Limiting resources";
                    "Blocking communication";
                    "Breaking language barriers"];
       correctAnswer := 3 |};
     {| id := 9;
       code := None;
       question := "Automated scheduling systems optimize:";
       options := ["Playground size";
                    "Classroom paint";
                    "Uniform design";
                    "Timetable creation"];
       correctAnswer := 3 |};
     {| id := 10;
       code := None;
       question := "Gamified AI learning platforms improve:";
       options := ["Student boredom";
                    "Network latency";
                    "Engagement and motivation";
                    "Paper usage"];
       correctAnswer := 2 |}
  ].

Definition phase3Questions : list Question :=
  [
     {| id := 1;
       code := Some (lines [
             "#include <stdio.h>";
             "int main() {";
             "    int x = 5, y = 2;";
             "    int result = x++ * --y;";
             ("    printf(" ++ dq ++ "%d %d %d" ++ dq ++ ", result, x, y);")%string;
             "    return 0;";
             "}"]);
       question := "What will be the output of this code?";
       options := ["5 6 1";
                    "10 6 1";
                    "5 5 2";
                    "10 5 1"];
       correctAnswer := 0 |};
     {| id := 2;
       code := Some (lines [
             "#include <stdio.h>";
             "int main() {";
             "    int i = 0, count = 0;";
             "    while (i < 10) {";
             "        i += 3;";
             "        if (i == 9)";
             "            break;";
             "        count++;";
             "    }";
             ("    printf(" ++ dq ++ "%d %d" ++ dq ++ ", count, i);")%string;
             "    return 0;";
             "}"]);
       question := "What will be the output of this code?";
       options := ["3 9";
                    "2 9";
                    "3 12";
                    "2 6"];
       correctAnswer := 1 |};
     {| id := 3;
       code := Some (lines [
             "#include <stdio.h>";
             "int main() {";
             "    int a = 12, b = 5;";
             ("    printf(" ++ dq ++ "%d %d %d" ++ dq ++ ", a & b, a | b, a ^ b);")%string;
             "    return 0;";
             "}"]);
       question := "What will be the output of this code?";
       options := ["4 13 9";
                    "5 12 7";
                    "4 12 9";
                    "0 17 8"];
       correctAnswer := 0 |};
     {| id := 4;
       code := Some (lines [
             "#include <stdio.h>";
             "int main() {";
             "    int arr[2][3] = {{1, 2, 3}, {4, 5, 6}};";
             ("    printf(" ++ dq ++ "%d " ++ dq ++ ", arr[0][2] + arr[1][0]);")%string;
             ("    printf(" ++ dq ++ "%d" ++ dq ++ ", arr[1][2] - arr[0][1]);")%string;
             "    return 0;";
             "}"]);
       question := "What will be the output of this code?";
       options := ["7 4";
                    "5 3";
                    "8 4";
                    "6 5"];
       correctAnswer := 0 |};
     {| id := 5;
       code := Some (lines [
             "#include <stdio.h>";
             "int main() {";
             "    int a = 3, b = 7, c = 5;";
             "    int max = (a > b) ? a : (b > c) ? b : c;";
             "    int min = (a < b) ? (a < c) ? a : c : (b < c) ? b : c;";
             ("    printf(" ++ dq ++ "%d %d" ++ dq ++ ", max, min);")%string;
             "    return 0;";
             "}"]);
       question := "What will be the output of this code?";
       options := ["3 7";
                    "5 3";
                    "7 3";
                    "7 5"];
       correctAnswer := 2 |}
  ].

Definition phase5Riddles : list Riddle :=
  [
     {| riddleId := 1;
       riddle := lines [
         "Study the maze below and find the ONLY path from S (Start) to E (Exit). Walls (#) block movement. You can only move Right (→) or Down (↓).";
         "";
         "    C0  C1  C2  C3  C4  C5";
         "R0: [S] [.] [#] [.] [.] [.]";
         "R1: [#] [.] [.] [#] [.] [#]";
         "R2: [.] [#] [.] [.] [.] [.]";
         "R3: [.] [.] [#] [#] [#] [.]";
         "R4: [#] [.] [.] [.] [#] [.]";
         "R5: [.] [#] [.] [.] [.] [E]";
         "";
         "Which sequence of moves leads from S to E?"];
       kind := Mcq ["→ ↓ → → ↓ → → ↓ ↓ ↓";
                     "→ ↓ ↓ → → → ↓ → ↓ ↓";
                     "→ ↓ → ↓ → → → ↓ ↓ ↓";
                     "↓ → → ↓ → → → ↓ ↓ ↓"]
                   2 |};
     {| riddleId := 2;
       riddle := lines [
         "LOGICAL DEDUCTION: Each AI Learning Tool is assigned exactly one Educational Function.";
         "";
         "AI Learning Tools (Numbered):";
         "  1. LearnMate";
         "  2. QuizGen";
         "  3. SmartTutor";
         "  4. SkillTrack";
         "";
         "Educational Functions (Labeled):";
         "  A. Personalized Learning";
         "  B. Assessment & Quizzes";
         "  C. Progress Tracking";
         "  D. Doubt Resolution";
         "";
         "Clues:";
         "  • QuizGen (2) is assigned to Assessment & Quizzes (B)";
         "  • LearnMate (1) is assigned to Personalized Learning (A)";
         "  • SkillTrack (4) is NOT assigned to A or B";
         "  • SmartTutor (3) is assigned to Doubt Resolution (D)";
         "";
         "What is the correct mapping?"];
       kind := Mcq ["LearnMate→A, QuizGen→B, SmartTutor→C, SkillTrack→D";
                     "LearnMate→B, QuizGen→A, SmartTutor→D, SkillTrack→C";
                     "LearnMate→A, QuizGen→B, SmartTutor→D, SkillTrack→C";
                     "LearnMate→D, QuizGen→B, SmartTutor→A, SkillTrack→C"]
                   2 |};
     {| riddleId := 3;
       riddle := lines [
         "PATTERN RECOGNITION";
         "";
         "Step 1 — Given Values:";
         "  A = 6,  B = 1,  C = 2,  D = 3";
         "";
         "Step 2 — Solve these expressions in order:";
         "  1) (2 × B)";
         "  2) (2 × A)";
         "  3) (2 × C)";
         "  4) (7 × B)";
         "  5) (2)";
         "";
         "Step 3 — Convert the obtained numbers using A1–Z26";
         "  (A=1, B=2, C=3 ... Z=26)";
         "  If a number is already a single digit, keep it as-is.";
         "";
         "What is the decoded keyword?"];
       kind := Text ["BLDG 2";
                     "BLDG2";
                     "bldg 2";
                     "bldg2";
                     "Bldg 2";
                     "Bldg2"] |}
  ].

Definition questionJson (q : Question) : JVal :=
  JObj ([("id", JNum (id q))] ++
        match code q with Some c => [("code", JStr c)] | None => [] end ++
        [("question", JStr (question q));
         ("options", JArr (map JStr (options q)));
         ("correctAnswer", JNum (correctAnswer q))]).

End Content.
Import Content.

(** ** The team record and the in-memory store ([teamsDB]) *)

Module Db.

(** A per-phase outcome object [phaseN].  A property that an object does not
    carry is [None]. *)
Record PhaseRec : Type := {
  completed : option bool;
  aiPrompt : option string;
  locationAnswer : option string
}.

Definition emptyPhase : PhaseRec :=
  {| completed := None; aiPrompt := None; locationAnswer := None |}.

(** The team object built by the register handler.  Every property is
    optional, as [saveTeam] starts from the empty object for an unknown id. *)
Record Team : Type := {
  teamId : option string;
  teamName : option string;
  teamLeader : option string;
  teamMembers : option (list string);
  email : option string;
  theme : option string;
  phase1 : option PhaseRec;
  phase2 : option PhaseRec;
  phase3 : option PhaseRec;
  phase4 : option PhaseRec;
  phase5 : option PhaseRec;
  phase6 : option PhaseRec;
  currentPhase : option Z
}.

Definition emptyTeam : Team :=
  {| teamId := None; teamName := None; teamLeader := None;
     teamMembers := None; email := None; theme := None;
     phase1 := None; phase2 := None; phase3 := None;
     phase4 := None; phase5 := None; phase6 := None;
     currentPhase := None |}.

(** The object literal passed to [saveTeam]: the phase objects it names and
    the [currentPhase] it sets, if any. *)
Record TeamUpdate : Type := {
  u_phase1 : option PhaseRec;
  u_phase2 : option PhaseRec;
  u_phase3 : option PhaseRec;
  u_phase4 : option PhaseRec;
  u_phase5 : option PhaseRec;
  u_phase6 : option PhaseRec;
  u_currentPhase : option Z
}.

Definition noUpdate : TeamUpdate :=
  {| u_phase1 := None; u_phase2 := None; u_phase3 := None;
     u_phase4 := None; u_phase5 := None; u_phase6 := None;
     u_currentPhase := None |}.

(** [team.phaseN?.completed] as a condition. *)
Definition phaseDone (p : option PhaseRec) : bool :=
  match p with
  | Some r => match completed r with Some b => b | None => false end
  | None => false
  end.

(** [team.currentPhase === n] *)
Definition onPhase (t : Team) (n : Z) : bool :=
  match currentPhase t with
  | Some c => Z.eqb c n
  | None => false
  end.

(** The phase object of phase [n] (1..6). *)
Definition phaseOf (n : nat) (t : Team) : option PhaseRec :=
  match n with
  | 1 => phase1 t
  | 2 => phase2 t
  | 3 => phase3 t
  | 4 => phase4 t
  | 5 => phase5 t
  | 6 => phase6 t
  | _ => None
  end%nat.

(** *** The [Map]: entries in insertion order *)

Definition Store : Type := list (string * Team).

Fixpoint mapGet (st : Store) (k : string) : option Team :=
  match st with
  | [] => None
  | (k', t) :: r => if String.eqb k' k then Some t else mapGet r k
  end.

(** [Map.prototype.set]: an existing key keeps its position. *)
Fixpoint mapSet (st : Store) (k : string) (t : Team) : Store :=
  match st with
  | [] => [(k, t)]
  | (k', t') :: r =>
      if String.eqb k' k then (k, t) :: r else (k', t') :: mapSet r k t
  end.

Fixpoint mapDelete (st : Store) (k : string) : Store :=
  match st with
  | [] => []
  | (k', t') :: r =>
      if String.eqb k' k then r else (k', t') :: mapDelete r k
  end.

(** *** Database helper functions *)

Definition sameName (n : string) (t : Team) : bool :=
  match teamName t with
  | Some m => String.eqb m n
  | None => false
  end.

Definition getTeamByName (st : Store) (name : string) : option Team :=
  let normalizedName := toLowerCase name in
  option_map snd (find (fun e => sameName normalizedName (snd e)) st).

(** [teamsDB.get(teamId) || null]; a key of the map is a string, so any other
    value finds nothing.  The key is returned with the team. *)
Definition getTeamById (st : Store) (id : JVal) : option (string * Team) :=
  match id with
  | JStr k => option_map (pair k) (mapGet st k)
  | _ => None
  end.

(** The inner loop of [deepMerge] on a phase object: every property of the
    source replaces the target's. *)
Definition mergePhase (target source : PhaseRec) : PhaseRec :=
  {| completed :=
       match completed source with Some b => Some b | None => completed target end;
     aiPrompt :=
       match aiPrompt source with Some s => Some s | None => aiPrompt target end;
     locationAnswer :=
       match locationAnswer source with
       | Some s => Some s
       | None => locationAnswer target
       end |}.

(** [if (!target[key]) target[key] = {}; deepMerge(target[key], source[key])] *)
Definition mergeSlot (target source : option PhaseRec) : option PhaseRec :=
  match source with
  | None => target
  | Some src =>
      Some (mergePhase (match target with Some p => p | None => emptyPhase end) src)
  end.

Definition deepMerge (target : Team) (source : TeamUpdate) : Team :=
  {| teamId := teamId target;
     teamName := teamName target;
     teamLeader := teamLeader target;
     teamMembers := teamMembers target;
     email := email target;
     theme := theme target;
     phase1 := mergeSlot (phase1 target) (u_phase1 source);
     phase2 := mergeSlot (phase2 target) (u_phase2 source);
     phase3 := mergeSlot (phase3 target) (u_phase3 source);
     phase4 := mergeSlot (phase4 target) (u_phase4 source);
     phase5 := mergeSlot (phase5 target) (u_phase5 source);
     phase6 := mergeSlot (phase6 target) (u_phase6 source);
     currentPhase :=
       match u_currentPhase source with
       | Some c => Some c
       | None => currentPhase target
       end |}.

Definition saveTeam (st : Store) (k : string) (teamData : TeamUpdate) : Store :=
  let existingTeam :=
    match mapGet st k with Some t => t | None => emptyTeam end in
  mapSet st k (deepMerge existingTeam teamData).

Definition createTeam (st : Store) (k : string) (teamData : Team) : Store :=
  mapSet st k teamData.

Definition getAllTeams (st : Store) : list Team := map snd st.

(** A leaderboard row [{teamId, teamName, teamLeader}]. *)
Record Entry : Type := {
  e_teamId : option string;
  e_teamName : option string;
  e_teamLeader : option string
}.

Definition entryOf (t : Team) : Entry :=
  {| e_teamId := teamId t; e_teamName := teamName t;
     e_teamLeader := teamLeader t |}.

Definition getCompletedTeams (st : Store) : list Entry :=
  let completedTeams :=
    map (fun e => entryOf (snd e))
        (filter (fun e => phaseDone (phase6 (snd e))) st) in
  firstn 10 completedTeams.

End Db.
Import Db.

(** ** The request handlers ([API ROUTES]) *)

Module Server.

(** [res.status(status).json(body)]; [res.json(body)] is status 200. *)
Record Response : Type := {
  status : Z;
  body : JVal
}.

Definition json (b : JVal) : Response := {| status := 200; body := b |}.

Definition error (code : Z) (msg : string) : Response :=
  {| status := code; body := JObj [("error", JStr msg)] |}.

(** The [catch] clause of a handler: the message is the engine's text for the
    [TypeError] that was thrown. *)
Definition serverError (message : string) : Response :=
  error 500 ("Server error: " ++ message)%string.

(** The engine's text for reading property [key] of [undefined] or [null]. *)
Definition cannotRead (v : JVal) (key : string) : string :=
  ("Cannot read properties of " ++
   match v with JNull => "null" | _ => "undefined" end ++
   " (reading '" ++ key ++ "')")%string.

Definition optStr (o : option string) : JVal :=
  match o with Some s => JStr s | None => JUndef end.

Definition phaseJson (p : PhaseRec) : JVal :=
  JObj (match aiPrompt p with Some s => [("aiPrompt", JStr s)] | None => [] end ++
        match locationAnswer p with
        | Some s => [("locationAnswer", JStr s)]
        | None => []
        end ++
        match completed p with Some b => [("completed", JBool b)] | None => [] end).

Definition optPhase (o : option PhaseRec) : JVal :=
  match o with Some p => phaseJson p | None => JUndef end.

Definition teamJson (t : Team) : JVal :=
  JObj [("teamId", optStr (teamId t));
        ("teamName", optStr (teamName t));
        ("teamLeader", optStr (teamLeader t));
        ("teamMembers",
          match teamMembers t with
          | Some l => JArr (map JStr l)
          | None => JUndef
          end);
        ("email", optStr (email t));
        ("theme", optStr (theme t));
        ("phase1", optPhase (phase1 t));
        ("phase2", optPhase (phase2 t));
        ("phase3", optPhase (phase3 t));
        ("phase4", optPhase (phase4 t));
        ("phase5", optPhase (phase5 t));
        ("phase6", optPhase (phase6 t));
        ("currentPhase",
          match currentPhase t with Some c => JNum c | None => JUndef end)].

(** *** Registration *)

Definition plainChar (c : ascii) : bool :=
  negb (isSpace c) && negb (Ascii.eqb c "@").

Fixpoint allChars (f : ascii -> bool) (s : string) : bool :=
  match s with
  | EmptyString => true
  | String c r => f c && allChars f r
  end.

(** A ["."] of [s] with at least one character before and after it. *)
Fixpoint innerDot (s : string) (seen : bool) : bool :=
  match s with
  | EmptyString => false
  | String c r =>
      (seen && Ascii.eqb c "." && negb (String.eqb r "")) || innerDot r true
  end.

(** The rest of the address after the ["@"]: [[^\s@]+\.[^\s@]+$] *)
Definition domainOk (d : string) : bool :=
  allChars plainChar d && innerDot d false.

(** [/^[^\s@]+@[^\s@]+\.[^\s@]+$/.test(s)]: the first group can only be the
    whole run of plain characters before the first ["@"]. *)
Fixpoint emailRegexTest (s : string) (seen : bool) : bool :=
  match s with
  | EmptyString => false
  | String c r =>
      if Ascii.eqb c "@" then seen && domainOk r
      else if isSpace c then false
      else emailRegexTest r true
  end.

Definition validThemes : list string :=
  ["AI in Healthcare";
   "Generative AI & Creativity";
   "Computer Science Fundamentals";
   "AI in Education & Learning";
   "AI in Smart Cities"].

Definition nonEmpty (s : string) : bool := negb (String.eqb s "").

Definition newPhase : option PhaseRec :=
  Some {| completed := Some false; aiPrompt := None; locationAnswer := None |}.

(** The registration form sends five texts; an absent field is the empty
    text (both fail the first test).  [now] is the decimal text of
    [Date.now()] and [rnd] the nine base-36 digits drawn from
    [Math.random()]. *)
Definition register (st : Store)
    (teamName teamLeader teamMembers email theme : string)
    (now rnd : string) : Store * Response :=
  if negb (nonEmpty teamName) || negb (nonEmpty teamLeader) ||
     negb (nonEmpty teamMembers) || negb (nonEmpty email) ||
     negb (nonEmpty theme)
  then (st, error 400 "All fields are required")
  else if negb (emailRegexTest email false)
  then (st, error 400 "Invalid email format")
  else if negb (existsb (String.eqb theme) validThemes)
  then (st, error 400 "Please select a valid theme")
  else
    let members := filter nonEmpty (map trim (splitComma teamMembers)) in
    if (List.length members <? 3)%nat || (4 <? List.length members)%nat
    then (st, error 400 "Team must have 3-4 members")
    else
      match getTeamByName st teamName with
      | Some _ => (st, error 400 "Team name already exists")
      | None =>
          let teamId := ("TEAM_" ++ now ++ "_" ++ rnd)%string in
          let team :=
            {| Db.teamId := Some teamId;
               Db.teamName := Some (toLowerCase teamName);
               Db.teamLeader := Some teamLeader;
               Db.teamMembers := Some members;
               Db.email := Some email;
               Db.theme := Some theme;
               phase1 := newPhase;
               phase2 := newPhase;
               phase3 := newPhase;
               phase4 := newPhase;
               phase5 := newPhase;
               phase6 := newPhase;
               currentPhase := Some 1%Z |} in
          (createTeam st teamId team,
           json (JObj [("success", JBool true);
                       ("message", JStr "Registration successful!");
                       ("team", teamJson team)]))
      end.

(** *** Phase 1 *)

(** [{ phase1: { aiPrompt, completed: true }, currentPhase: 2 }] *)
Definition phase1Update (prompt : string) : TeamUpdate :=
  {| u_phase1 := Some {| completed := Some true;
                         aiPrompt := Some prompt;
                         locationAnswer := None |};
     u_phase2 := None; u_phase3 := None; u_phase4 := None;
     u_phase5 := None; u_phase6 := None;
     u_currentPhase := Some 2%Z |}.

Definition phase1_submit (st : Store) (teamId aiPrompt : JVal)
    : Store * Response :=
  if negb (truthy teamId) || negb (truthy aiPrompt)
  then (st, error 400 "Team ID and AI prompt are required")
  else
    match getTeamById st teamId with
    | None => (st, error 404 "Team not found")
    | Some (k, team) =>
        if phaseDone (phase1 team)
        then (st, error 400 "Phase 1 already completed")
        else if negb (onPhase team 1)
        then (st, error 400 "Not on Phase 1")
        else
          match aiPrompt with
          | JStr prompt =>
              if negb (includes (toUpperCase prompt) "VU2050")
              then (st, error 400
                      ("AI Prompt must contain keyword " ++ dq ++ "VU2050" ++ dq)%string)
              else
                (saveTeam st k (phase1Update prompt),
                 json (JObj [("success", JBool true);
                             ("message", JStr "Phase 1 completed!")]))
          | _ => (st, serverError "aiPrompt.toUpperCase is not a function")
          end
    end.

(** *** Phase 2 *)

(** [{ phaseN: { completed: true }, currentPhase: N + 1 }], the update of the
    handlers of phases 2 to 5. *)
Definition completePhase (n : nat) : TeamUpdate :=
  let done :=
    Some {| completed := Some true; aiPrompt := None; locationAnswer := None |} in
  {| u_phase1 := None;
     u_phase2 := if (n =? 2)%nat then done else None;
     u_phase3 := if (n =? 3)%nat then done else None;
     u_phase4 := if (n =? 4)%nat then done else None;
     u_phase5 := if (n =? 5)%nat then done else None;
     u_phase6 := None;
     u_currentPhase := Some (Z.of_nat n + 1)%Z |}.

(** [updateData] of the phase-2 submit handler: [{ phase2: { completed:
    passed } }], with [currentPhase = 3] added when [passed]. *)
Definition phase2Update (passed : bool) : TeamUpdate :=
  {| u_phase1 := None;
     u_phase2 := Some {| completed := Some passed;
                         aiPrompt := None;
                         locationAnswer := None |};
     u_phase3 := None; u_phase4 := None; u_phase5 := None;
     u_phase6 := None;
     u_currentPhase := if passed then Some 3%Z else None |}.

Definition phase2_complete (st : Store) (teamId : JVal) : Store * Response :=
  match getTeamById st teamId with
  | None => (st, error 404 "Team not found")
  | Some (k, team) =>
      if phaseDone (phase2 team)
      then (st, error 400 "Phase 2 already completed")
      else
        (saveTeam st k (completePhase 2),
         json (JObj [("success", JBool true);
                     ("message", JStr "Phase 2 completed!")]))
  end.

Fixpoint mapIndexed {A B : Type} (f : A -> nat -> B) (index : nat) (l : list A)
    : list B :=
  match l with
  | [] => []
  | x :: r => f x index :: mapIndexed f (S index) r
  end.

(** [answers[index] === q.correctAnswer] *)
Definition isCorrect (answers : JVal) (q : Question) (index : nat) : bool :=
  strictEqNum (elemAt answers index) (correctAnswer q).

(** The marks of the scoring loop; [None] when reading [answers[0]] throws
    (the body sent no [answers]). *)
Definition markAll (questions : list Question) (answers : JVal)
    : option (list bool) :=
  match questions with
  | [] => Some []
  | _ :: _ =>
      if nullish answers then None
      else Some (mapIndexed (isCorrect answers) 0 questions)
  end.

Definition countTrue (marks : list bool) : nat :=
  List.length (filter (fun b => b) marks).

Definition num (n : nat) : JVal := JNum (Z.of_nat n).

Definition phase2_submit (st : Store) (teamId answers : JVal)
    : Store * Response :=
  match getTeamById st teamId with
  | None => (st, error 404 "Team not found")
  | Some (k, team) =>
      if phaseDone (phase2 team)
      then (st, error 400 "Phase 2 already completed")
      else
        match markAll phase2Questions answers with
        | None =>
            (st, serverError (cannotRead answers "0"))
        | Some marks =>
            let score := countTrue marks in
            let results :=
              mapIndexed (fun m index =>
                            JObj [("questionIndex", num index);
                                  ("isCorrect", JBool m)]) 0 marks in
            let passed := (score =? List.length phase2Questions)%nat in
            (saveTeam st k (phase2Update passed),
             json (JObj [("success", JBool true);
                         ("score", num score);
                         ("total", num (List.length phase2Questions));
                         ("passed", JBool passed);
                         ("results", JArr results)]))
        end
  end.

(** *** Phase 3 *)

Definition MIN_SCORE : nat := 3.

Definition phase3_result (answers : JVal) (q : Question) (index : nat) : JVal :=
  JObj [("questionId", JNum (id q));
        ("userAnswer", elemAt answers index);
        ("correctAnswer", JNum (correctAnswer q));
        ("isCorrect", JBool (isCorrect answers q index))].

Definition phase3_submit (st : Store) (teamId answers : JVal)
    : Store * Response :=
  match getTeamById st teamId with
  | None => (st, error 404 "Team not found")
  | Some (k, team) =>
      if negb (onPhase team 3)
      then (st, error 400 "Not on Phase 3")
      else if phaseDone (phase3 team)
      then (st, error 400 "Phase 3 already completed")
      else
        match markAll phase3Questions answers with
        | None =>
            (st, serverError (cannotRead answers "0"))
        | Some marks =>
            let score := countTrue marks in
            let results := mapIndexed (phase3_result answers) 0 phase3Questions in
            if (score <? MIN_SCORE)%nat
            then
              (st,
               json (JObj [("success", JBool true);
                           ("score", num score);
                           ("passed", JBool false);
                           ("results", JArr results);
                           ("questions", JArr (map questionJson phase3Questions))]))
            else
              (saveTeam st k (completePhase 3),
               json (JObj [("success", JBool true);
                           ("score", num score);
                           ("passed", JBool true);
                           ("results", JArr results);
                           ("questions", JArr (map questionJson phase3Questions))]))
        end
  end.

(** *** Phase 4 *)

Definition correctAnswer4 : string := "positive sum: 22, count: 4".

(** [answer ? answer.trim().toLowerCase() : ''], [None] when [answer] is a
    truthy value without a [trim] method. *)
Definition userAnswer (answer : JVal) : option string :=
  if truthy answer then
    match answer with
    | JStr s => Some (toLowerCase (trim s))
    | _ => None
    end
  else Some "".

Definition phase4_submit (st : Store) (teamId answer : JVal)
    : Store * Response :=
  match getTeamById st teamId with
  | None => (st, error 404 "Team not found")
  | Some (k, team) =>
      if negb (onPhase team 4)
      then (st, error 400 "Not on Phase 4")
      else if phaseDone (phase4 team)
      then (st, error 400 "Phase 4 already completed")
      else
        match userAnswer answer with
        | None => (st, serverError "answer.trim is not a function")
        | Some ua =>
            if String.eqb ua correctAnswer4 || String.eqb ua "22"
            then
              (saveTeam st k (completePhase 4),
               json (JObj [("success", JBool true);
                           ("correct", JBool true);
                           ("message",
                             JStr "Correct! The next treasure is at Room 2012!");
                           ("room", JStr "2012")]))
            else
              (st,
               json (JObj [("success", JBool false);
                           ("correct", JBool false);
                           ("message", JStr "Incorrect output. Try again!")]))
        end
  end.

(** *** Phase 5 *)

(** [phase5Riddles.find(r => r.id === parseInt(riddleId))] *)
Definition findRiddle (n : option Z) : option Riddle :=
  match n with
  | Some z => find (fun r => Z.eqb (riddleId r) z) phase5Riddles
  | None => None
  end.

Definition sameText (a b : string) : bool :=
  String.eqb (toLowerCase (trim a)) (toLowerCase (trim b)).

(** The two branches that increment [serverScore], on [ans.answer]. *)
Definition riddleCorrect (r : Riddle) (answer : JVal) : bool :=
  match kind r with
  | Mcq _ correct => strictEqNum answer correct
  | Text accepted =>
      match answer with
      | JStr s => existsb (fun a => sameText a s) accepted
      | _ => false
      end
  end.

(** The [forEach] over [Object.entries(answers)]; [None] when [ans.answer]
    throws ([ans] is [null]) on an entry that names a riddle. *)
Fixpoint scoreEntries (entries : list (string * JVal)) (serverScore : nat)
    : option nat :=
  match entries with
  | [] => Some serverScore
  | (riddleId, ans) :: rest =>
      match findRiddle (parseInt riddleId) with
      | None => scoreEntries rest serverScore
      | Some r =>
          if nullish ans then None
          else scoreEntries rest
                 (if riddleCorrect r (prop ans "answer")
                  then S serverScore else serverScore)
      end
  end.

Definition recalcScore (answers : JVal) : option nat :=
  if truthy answers && typeofObject answers
  then scoreEntries (objectEntries answers) 0
  else Some 0%nat.

Definition phase5_complete (st : Store) (teamId answers score : JVal)
    : Store * Response :=
  match getTeamById st teamId with
  | None => (st, error 404 "Team not found")
  | Some (k, team) =>
      if negb (onPhase team 5)
      then (st, error 400 "Not on Phase 5")
      else
        match recalcScore answers with
        | None => (st, serverError (cannotRead JNull "answer"))
        | Some serverScore =>
            let totalRiddles := List.length phase5Riddles in
            if (serverScore <? totalRiddles)%nat
            then
              (st,
               json (JObj [("success", JBool false);
                           ("score", num serverScore);
                           ("total", num totalRiddles);
                           ("message",
                             JStr ("You scored " ++ natToString serverScore ++ "/" ++
                                   natToString totalRiddles ++
                                   ". All challenges must be correct to pass. Try again!")%string)]))
            else
              (saveTeam st k (completePhase 5),
               json (JObj [("success", JBool true);
                           ("score", num serverScore);
                           ("message",
                             JStr "Phase 5 completed! Proceed to the final phase.")]))
        end
  end.

(** *** Phase 6 *)

(** [{ phase6: { locationAnswer, completed: true }, currentPhase: 7 }] *)
Definition phase6Update (location : string) : TeamUpdate :=
  {| u_phase1 := None; u_phase2 := None; u_phase3 := None;
     u_phase4 := None; u_phase5 := None;
     u_phase6 := Some {| completed := Some true;
                         aiPrompt := None;
                         locationAnswer := Some location |};
     u_currentPhase := Some 7%Z |}.

(** The form is multipart ([upload.none()]): [locationAnswer] is a text, the
    empty text when the field is absent ([locationAnswer || '']). *)
Definition phase6_submit (st : Store) (teamId : JVal) (locationAnswer : string)
    : Store * Response :=
  match getTeamById st teamId with
  | None => (st, error 404 "Team not found")
  | Some (k, team) =>
      if negb (onPhase team 6)
      then (st, error 400 "Not on Phase 6")
      else if phaseDone (phase6 team)
      then (st, error 400 "Already completed")
      else
        (saveTeam st k (phase6Update locationAnswer),
         json (JObj [("success", JBool true);
                     ("message",
                       JStr "Congratulations! You have completed CodeHunt-2026!");
                     ("teamName", optStr (teamName team));
                     ("teamLeader", optStr (teamLeader team))]))
  end.

(** *** Leaderboard and administration *)

Definition entryJson (e : Entry) : JVal :=
  JObj [("teamId", optStr (e_teamId e));
        ("teamName", optStr (e_teamName e));
        ("teamLeader", optStr (e_teamLeader e))].

Definition leaderboard (st : Store) : Response :=
  json (JArr (map entryJson (getCompletedTeams st))).

Definition admin_delete_team (st : Store) (teamId : string) : Store * Response :=
  (mapDelete st teamId,
   json (JObj [("success", JBool true); ("message", JStr "Team deleted")])).

Definition admin_clear_all (st : Store) : Store * Response :=
  ([], json (JObj [("success", JBool true); ("message", JStr "All teams cleared")])).

(** *** Requests *)

(** The routes that can write to the store, with the fields of their body. *)
Inductive Request : Type :=
| Register (teamName teamLeader teamMembers email theme now rnd : string)
| Phase1Submit (teamId aiPrompt : JVal)
| Phase2Complete (teamId : JVal)
| Phase2Submit (teamId answers : JVal)
| Phase3Submit (teamId answers : JVal)
| Phase4Submit (teamId answer : JVal)
| Phase5Complete (teamId answers score : JVal)
| Phase6Submit (teamId : JVal) (locationAnswer : string)
| AdminDeleteTeam (teamId : string)
| AdminClearAll.

Definition handle (st : Store) (req : Request) : Store * Response :=
  match req with
  | Register n l m e t now rnd => register st n l m e t now rnd
  | Phase1Submit i p => phase1_submit st i p
  | Phase2Complete i => phase2_complete st i
  | Phase2Submit i a => phase2_submit st i a
  | Phase3Submit i a => phase3_submit st i a
  | Phase4Submit i a => phase4_submit st i a
  | Phase5Complete i a s => phase5_complete st i a s
  | Phase6Submit i l => phase6_submit st i l
  | AdminDeleteTeam i => admin_delete_team st i
  | AdminClearAll => admin_clear_all st
  end.

(** The phase a submit or complete request attempts. *)
Definition phaseAttempted (req : Request) : option nat :=
  match req with
  | Phase1Submit _ _ => Some 1
  | Phase2Complete _ | Phase2Submit _ _ => Some 2
  | Phase3Submit _ _ => Some 3
  | Phase4Submit _ _ => Some 4
  | Phase5Complete _ _ _ => Some 5
  | Phase6Submit _ _ => Some 6
  | _ => None
  end%nat.

Definition requestTeamId (req : Request) : JVal :=
  match req with
  | Phase1Submit i _ | Phase2Complete i | Phase2Submit i _
  | Phase3Submit i _ | Phase4Submit i _ | Phase5Complete i _ _
  | Phase6Submit i _ => i
  | AdminDeleteTeam i => JStr i
  | _ => JUndef
  end.

(** The stores the server can be in: it starts empty and serves requests one
    at a time. *)
Inductive reachable : Store -> Prop :=
| reach_start : reachable []
| reach_serve st req : reachable st -> reachable (fst (handle st req)).

Fixpoint run (st : Store) (reqs : list Request) : Store :=
  match reqs with
  | [] => st
  | r :: rest => run (fst (handle st r)) rest
  end.

End Server.
Import Server.

(** ** Concrete runs used as test inputs *)

Definition alphaId : string := "TEAM_1700000000000_k3v9x0q2m".

Definition registerAlpha : Request :=
  Register "Alpha" "Asha" "Asha, Bilal, Chen" "alpha@vu.edu"
           "AI in Education & Learning" "1700000000000" "k3v9x0q2m".

Definition teamOf (st : Store) : option Team := mapGet st alphaId.

Definition phaseNow (st : Store) : option Z :=
  match teamOf st with Some t => currentPhase t | None => None end.

Definition doneNow (n : nat) (st : Store) : bool :=
  match teamOf st with Some t => phaseDone (phaseOf n t) | None => false end.

(** ** Vocabulary of the specification *)



(** Step (a) of a handler, the presence of the required fields; only the
    phase-1 handler has one. *)
Definition requiredFields (req : Request) : bool :=
  match req with
  | Phase1Submit i p => truthy i && truthy p
  | _ => true
  end.

(** [marker] occurs in [s] up to the case of the letters of [s]. *)
Definition containsIgnoringCase (s marker : string) : Prop :=
  exists pre mid post,
    s = (pre ++ mid ++ post)%string /\ toUpperCase mid = marker.

(** The team object as registration creates it. *)
Definition freshTeam (t : Team) : Prop :=
  currentPhase t = Some 1%Z /\
  phase1 t = newPhase /\ phase2 t = newPhase /\ phase3 t = newPhase /\
  phase4 t = newPhase /\ phase5 t = newPhase /\ phase6 t = newPhase.

(** The writes of the phase handlers: the update each one saves, with the
    guards that the team passed before it. *)
Inductive transition : Team -> TeamUpdate -> Prop :=
| tr_phase1 t prompt :
    phaseDone (phase1 t) = false -> onPhase t 1 = true ->
    transition t (phase1Update prompt)
| tr_phase2_complete t :
    phaseDone (phase2 t) = false -> transition t (completePhase 2)
| tr_phase2_submit t passed :
    phaseDone (phase2 t) = false -> transition t (phase2Update passed)
| tr_phase3 t :
    onPhase t 3 = true -> phaseDone (phase3 t) = false ->
    transition t (completePhase 3)
| tr_phase4 t :
    onPhase t 4 = true -> phaseDone (phase4 t) = false ->
    transition t (completePhase 4)
| tr_phase5 t :
    onPhase t 5 = true -> transition t (completePhase 5)
| tr_phase6 t location :
    onPhase t 6 = true -> phaseDone (phase6 t) = false ->
    transition t (phase6Update location).

(** [phaseN.completed] when the phase object and the flag are present. *)
Definition flag (p : option PhaseRec) : option bool :=
  match p with
  | Some r => completed r
  | None => None
  end.

(** The invariant of a stored team: the progress fields are present,
    [currentPhase] is in 1..7, a completed phase lies behind [currentPhase],
    and [currentPhase] is beyond 2 only with phase 2 completed. *)
Definition teamOk (t : Team) : bool :=
  match currentPhase t, flag (phase1 t), flag (phase2 t), flag (phase3 t),
        flag (phase4 t), flag (phase5 t), flag (phase6 t) with
  | Some c, Some b1, Some b2, Some b3, Some b4, Some b5, Some b6 =>
      ((1 <=? c) && (c <=? 7) &&
       implb b1 (2 <=? c) && implb b2 (3 <=? c) && implb b3 (4 <=? c) &&
       implb b4 (5 <=? c) && implb b5 (6 <=? c) && implb b6 (7 <=? c) &&
       implb (3 <=? c) b2)%Z
  | _, _, _, _, _, _, _ => false
  end.

Definition storeOk (st : Store) : Prop :=
  Forall (fun e => teamOk (snd e) = true) st.


(** The number of indices [i] with [answers[i]] equal to the
    [correctAnswer] of the [i]-th question. *)
Definition correctCount (questions : list Question) (answers : JVal) : nat :=
  List.length
    (filter (fun i =>
               match nth_error questions i with
               | Some q => strictEqNum (elemAt answers i) (correctAnswer q)
               | None => false
               end)
            (seq 0 (List.length questions))).

(** The state of a team after it passed phase [n]. *)
Definition advancedPast (n : nat) (st : Store) (k : string) : Prop :=
  exists t, mapGet st k = Some t /\
            flag (phaseOf n t) = Some true /\
            currentPhase t = Some (Z.of_nat n + 1)%Z.

(** Answer sets for the phase handlers. *)

Definition quizKey : JVal :=
  JArr (map (fun q => JNum (correctAnswer q)) phase2Questions).

Definition codeKey : JVal :=
  JArr (map (fun q => JNum (correctAnswer q)) phase3Questions).

Definition riddleKey : JVal :=
  JObj [("1", JObj [("answer", JNum 2); ("correct", JBool true)]);
        ("2", JObj [("answer", JNum 2); ("correct", JBool true)]);
        ("3", JObj [("answer", JStr " Bldg 2 "); ("correct", JBool true)])].


(** A team that passes the six phases in order. *)
Definition playThrough (upTo : nat) : list Request :=
  registerAlpha ::
  firstn upTo
    [Phase1Submit (JStr alphaId) (JStr "test VU2050 plan");
     Phase2Submit (JStr alphaId) quizKey;
     Phase3Submit (JStr alphaId) codeKey;
     Phase4Submit (JStr alphaId) (JStr "22");
     Phase5Complete (JStr alphaId) riddleKey JUndef;
     Phase6Submit (JStr alphaId) "Basketball court"].

Definition storeAfter (upTo : nat) : Store := run [] (playThrough upTo).

Definition stored (st : Store) : Team :=
  match teamOf st with Some t => t | None => emptyTeam end.

(** An answer map that names riddle 1 three times (the keys differ as
    texts, [parseInt] reads each as 1) and no other riddle. *)
Definition riddleOneThrice : JVal :=
  JObj [("1", JObj [("answer", JNum 2)]);
        ("01", JObj [("answer", JNum 2)]);
        ("001", JObj [("answer", JNum 2)])].

(** Phase-3 answer lists with exactly three and exactly two right answers. *)
Definition threeRight : JVal := JArr [JNum 0; JNum 1; JNum 0; JNum 3; JNum 3].
Definition twoRight : JVal := JArr [JNum 0; JNum 1; JNum 1; JNum 3; JNum 3].

(** ** Read-only routes and statistics *)

Module Routes.


(** [POST /api/phase2/check-answer].  [questionIndex] is the JSON number of
    the body, [None] when the body has none ([questionIndex == null]). *)
Definition phase2_check_answer (questionIndex : option Z) (answer : JVal)
    : Response :=
  match questionIndex with
  | None => error 400 "questionIndex and answer are required"
  | Some i =>
      if nullish answer
      then error 400 "questionIndex and answer are required"
      else if (i <? 0)%Z || (Z.of_nat (List.length phase2Questions) <=? i)%Z
      then error 400 "Invalid question index"
      else
        match nth_error phase2Questions (Z.to_nat i) with
        | Some q =>
            json (JObj [("success", JBool true);
                        ("correct", JBool (strictEqNum answer (correctAnswer q)))])
        | None => error 500 "Server error"
        end
  end.

(** The decimal text of an integer, as [Number.prototype.toString] prints
    integers below 10^21. *)
Definition zToString (z : Z) : string := NilZero.string_of_int (Z.to_int z).

(** [v.toString()] on a parsed JSON value; [None] when the call throws
    ([v] is [undefined] or [null], or an object whose own [toString]
    property hides the method).  An array joins the texts of its elements
    with commas, [undefined] and [null] elements giving the empty text. *)
Fixpoint toStringJ (v : JVal) : option string :=
  match v with
  | JUndef | JNull => None
  | JBool b => Some (if b then "true" else "false")
  | JNum z => Some (zToString z)
  | JStr s => Some s
  | JArr l =>
      (fix join (l : list JVal) : option string :=
         match l with
         | [] => Some ""
         | x :: r =>
             let sx :=
               match x with
               | JUndef | JNull => Some ""
               | _ => toStringJ x
               end in
             match r with
             | [] => sx
             | _ :: _ =>
                 match sx, join r with
                 | Some a, Some b => Some (a ++ "," ++ b)%string
                 | _, _ => None
                 end
             end
         end) l
  | JObj f =>
      match lookup "toString" f with
      | Some _ => None
      | None => Some "[object Object]"
      end
  end.



(** The counters of [getStats]. *)
Record Stats : Type := {
  totalTeams : nat;
  done1 : nat;
  done2 : nat;
  done3 : nat;
  done4 : nat;
  done5 : nat;
  done6 : nat
}.

(** [if (flag) counter++] *)
Definition bump (b : bool) (n : nat) : nat := if b then S n else n.

(** The body of the loop over [teamsDB]. *)
Definition countTeam (stats : Stats) (team : Team) : Stats :=
  {| totalTeams := S (totalTeams stats);
     done1 := bump (phaseDone (phase1 team)) (done1 stats);
     done2 := bump (phaseDone (phase2 team)) (done2 stats);
     done3 := bump (phaseDone (phase3 team)) (done3 stats);
     done4 := bump (phaseDone (phase4 team)) (done4 stats);
     done5 := bump (phaseDone (phase5 team)) (done5 stats);
     done6 := bump (phaseDone (phase6 team)) (done6 stats) |}.

Definition getStats (st : Store) : Stats :=
  fold_left (fun stats e => countTeam stats (snd e)) st
    {| totalTeams := 0; done1 := 0; done2 := 0; done3 := 0;
       done4 := 0; done5 := 0; done6 := 0 |}.

(** [GET /api/admin/stats] *)
Definition admin_stats (st : Store) : Response :=
  let stats := getStats st in
  json (JObj [("totalTeams", num (totalTeams stats));
              ("phaseStats",
                JObj [("phase1", num (done1 stats));
                      ("phase2", num (done2 stats));
                      ("phase3", num (done3 stats));
                      ("phase4", num (done4 stats));
                      ("phase5", num (done5 stats));
                      ("phase6", num (done6 stats))])]).

(** [GET /api/admin/teams] *)
Definition admin_teams (st : Store) : Response :=
  json (JArr (map teamJson (getAllTeams st))).

End Routes.
Import Routes.

(** ** The registration form of the client ([src/pages/Phase1.jsx]) *)

Module Client.

(** The [formData] state of the page. *)
Record FormData : Type := {
  f_teamName : string;
  f_teamLeader : string;
  f_teamMembers : string;
  f_email : string;
  f_driveLink : string;
  f_aiPrompt : string
}.

(** [validateForm]: the [newErrors] object, as its entries in the order of
    assignment, and the result [Object.keys(newErrors).length === 0]. *)
Definition validateForm (formData : FormData)
    : list (string * string) * bool :=
  let members :=
    filter nonEmpty (map trim (splitComma (f_teamMembers formData))) in
  let newErrors :=
    (if nonEmpty (trim (f_teamName formData)) then []
     else [("teamName", "Team name is required")]) ++
    (if nonEmpty (trim (f_teamLeader formData)) then []
     else [("teamLeader", "Team leader name is required")]) ++
    (if (List.length members <? 3)%nat || (4 <? List.length members)%nat
     then [("teamMembers", "Must have 3-4 team members (comma-separated)")]
     else []) ++
    (if emailRegexTest (f_email formData) false then []
     else [("email", "Invalid email format")]) ++
    (if includes (toUpperCase (f_aiPrompt formData)) "VU2050" then []
     else [("aiPrompt",
            ("Prompt must contain keyword " ++ dq ++ "VU2050" ++ dq)%string)]) in
  (newErrors, (List.length newErrors =? 0)%nat).

(** The request [handleSubmit] sends: [JSON.stringify(formData)] posted to
    [/teams/register].  The form has no [theme], so the body has none. *)
Definition registerRequest (formData : FormData) (now rnd : string) : Request :=
  Register (f_teamName formData) (f_teamLeader formData)
           (f_teamMembers formData) (f_email formData) "" now rnd.

End Client.
Import Client.

(** ** Further invariants of the store *)

(** The [teamName] properties of the stored teams, in store order. *)
Definition storedNames (st : Store) : list (option string) :=
  map (fun e => teamName (snd e)) st.

(** An entry as registration writes it: stored under its own [teamId], an
    id that starts with ["TEAM_"], with a lower-case [teamName]. *)
Definition entryWf (e : string * Team) : Prop :=
  teamId (snd e) = Some (fst e) /\
  startsWith (fst e) "TEAM_" = true /\
  exists n, teamName (snd e) = Some n /\ toLowerCase n = n.

Definition storeWf (st : Store) : Prop :=
  NoDup (map fst st) /\ NoDup (storedNames st) /\ Forall entryWf st.



(** The team object the register handler creates. *)
Definition registeredTeam (k name leader : string) (members : list string)
    (mail th : string) : Team :=
  {| teamId := Some k;
     teamName := Some (toLowerCase name);
     teamLeader := Some leader;
     teamMembers := Some members;
     email := Some mail;
     theme := Some th;
     phase1 := newPhase; phase2 := newPhase; phase3 := newPhase;
     phase4 := newPhase; phase5 := newPhase; phase6 := newPhase;
     currentPhase := Some 1%Z |}.

(** The names of a registration text: split at commas, trimmed, blanks
    dropped. *)
Definition memberNames (teamMembers : string) : list string :=
  filter nonEmpty (map trim (splitComma teamMembers)).




(** A second team and a form, for concrete runs. *)
Definition registerBeta : Request :=
  Register "Beta" "Bo" "Bo,Cy,Di,Ed" "beta@vu.edu" "AI in Smart Cities"
           "1700000000500" "z8w1y4p7c".

Definition betaId : string := "TEAM_1700000000500_z8w1y4p7c".

Definition twoTeams : Store :=
  run (storeAfter 6) [registerBeta; Phase1Submit (JStr betaId) (JStr "vu2050")].

Definition alphaForm : FormData :=
  {| f_teamName := "Alpha"; f_teamLeader := "Asha";
     f_teamMembers := "Asha, Bilal, Chen"; f_email := "alpha@vu.edu";
     f_driveLink := "https://drive.google.com/drive/folders/x";
     f_aiPrompt := "a campus in VU2050" |}.

(** * Properties *)

(** ** Sanity checks of the model on concrete inputs *)

Example parseInt_1 : parseInt "1" = Some 1%Z. Proof. reflexivity. Qed.
Example parseInt_01 : parseInt " 01abc" = Some 1%Z. Proof. reflexivity. Qed.
Example parseInt_hex : parseInt "0x1f" = Some 31%Z. Proof. reflexivity. Qed.
Example parseInt_nan : parseInt "x1" = None. Proof. reflexivity. Qed.
Example trim_ex : trim "  Ab c  " = "Ab c". Proof. reflexivity. Qed.
Example split_ex : splitComma "a, b,,c" = ["a"; " b"; ""; "c"]. Proof. reflexivity. Qed.
Example upper_ex : toUpperCase "test vu2050 plan" = "TEST VU2050 PLAN". Proof. reflexivity. Qed.
Example index_ex : indexKey 12 = "12". Proof. reflexivity. Qed.
Example unicode_ex : String.length "→ ↓" = 7. Proof. reflexivity. Qed.
Example phase2_len : List.length phase2Questions = 10%nat. Proof. reflexivity. Qed.
Example phase3_len : List.length phase3Questions = 5%nat. Proof. reflexivity. Qed.
Example phase5_len : List.length phase5Riddles = 3%nat. Proof. reflexivity. Qed.

Example registered_phase : phaseNow (run [] [registerAlpha]) = Some 1%Z.
Proof. reflexivity. Qed.

Example registered_lookup :
  option_map teamName (getTeamByName (run [] [registerAlpha]) "ALPHA")
  = Some (Some "alpha").
Proof. reflexivity. Qed.

Example email_examples :
  map (fun e => emailRegexTest e false)
      ["a@b.c"; "a@b"; "a@.c"; "a@b..c"; "a@b.c."; "a b@c.d"; "@b.c"; "a@b@c.d"]
  = [true; false; false; true; true; false; false; false].
Proof. reflexivity. Qed.

Example members_example :
  filter nonEmpty (map trim (splitComma " Asha ,Bilal,, Chen ,"))
  = ["Asha"; "Bilal"; "Chen"].
Proof. reflexivity. Qed.

Example duplicate_name_rejected :
  status (snd (handle (run [] [registerAlpha])
                 (Register "aLPHA" "X" "a,b,c" "x@y.zz" "AI in Healthcare" "1" "r")))
  = 400%Z.
Proof. reflexivity. Qed.

(** Spec section 8, item 10: register, pass phase 1, resubmit. *)
Example end_to_end_phase1 :
  let st1 := run [] [registerAlpha] in
  let r1 := handle st1 (Phase1Submit (JStr alphaId) (JStr "test VU2050 plan")) in
  let r2 := handle (fst r1) (Phase1Submit (JStr alphaId) (JStr "test VU2050 plan")) in
  status (snd r1) = 200%Z /\ doneNow 1 (fst r1) = true /\
  phaseNow (fst r1) = Some 2%Z /\
  snd r2 = error 400 "Phase 1 already completed" /\ fst r2 = fst r1.
Proof. vm_compute. repeat split. Qed.

Example play_through_phases :
  map (fun n => phaseNow (storeAfter n)) [0; 1; 2; 3; 4; 5; 6]%nat
  = map Some [1; 2; 3; 4; 5; 6; 7]%Z.
Proof. vm_compute. reflexivity. Qed.

(** ** Lemmas on the store *)

Section StoreLemmas.

Lemma mapGet_In (st : Store) (k : string) (t : Team) :
  mapGet st k = Some t -> In (k, t) st.
Proof.
  induction st as [|[k' t'] r IH]; simpl; [discriminate|].
  destruct (String.eqb_spec k' k) as [->|Hne].
  - intros [= ->]. now left.
  - intros H. right. auto.
Qed.

Lemma mapSet_get_same (st : Store) (k : string) (t : Team) :
  mapGet (mapSet st k t) k = Some t.
Proof.
  induction st as [|[k' t'] r IH]; simpl.
  - now rewrite String.eqb_refl.
  - destruct (String.eqb_spec k' k) as [->|Hne]; simpl.
    + now rewrite String.eqb_refl.
    + destruct (String.eqb_spec k' k); [contradiction|exact IH].
Qed.

Lemma mapSet_get_other (st : Store) (k k' : string) (t : Team) :
  k' <> k -> mapGet (mapSet st k t) k' = mapGet st k'.
Proof.
  intros Hne.
  induction st as [|[k0 t0] r IH]; simpl.
  - destruct (String.eqb_spec k k'); [congruence|reflexivity].
  - destruct (String.eqb_spec k0 k) as [->|Hk]; simpl.
    + destruct (String.eqb_spec k k'); [congruence|reflexivity].
    + destruct (String.eqb_spec k0 k'); [reflexivity|exact IH].
Qed.

(** Writing back the value a key already has changes nothing. *)
Lemma mapSet_same (st : Store) (k : string) (t : Team) :
  mapGet st k = Some t -> mapSet st k t = st.
Proof.
  induction st as [|[k' t'] r IH]; simpl; [discriminate|].
  destruct (String.eqb_spec k' k) as [->|Hne].
  - now intros [= ->].
  - intros H. now rewrite IH.
Qed.

Lemma Forall_mapSet (P : string * Team -> Prop) (st : Store) k t :
  Forall P st -> P (k, t) -> Forall P (mapSet st k t).
Proof.
  intros Hst Hp.
  induction Hst as [|[k' t'] r Hx Hr IH]; simpl.
  - now constructor.
  - destruct (String.eqb k' k); constructor; auto.
Qed.

Lemma Forall_mapDelete (P : string * Team -> Prop) (st : Store) k :
  Forall P st -> Forall P (mapDelete st k).
Proof.
  intros Hst.
  induction Hst as [|[k' t'] r Hx Hr IH]; simpl.
  - constructor.
  - destruct (String.eqb k' k); [assumption|now constructor].
Qed.

Lemma getTeamById_inv (st : Store) (i : JVal) (k : string) (t : Team) :
  getTeamById st i = Some (k, t) -> i = JStr k /\ mapGet st k = Some t.
Proof.
  destruct i; simpl; try discriminate.
  destruct (mapGet st s) eqn:E; simpl; [|discriminate].
  now intros [= <- <-].
Qed.

Lemma getTeamById_str (st : Store) (k : string) (t : Team) :
  mapGet st k = Some t -> getTeamById st (JStr k) = Some (k, t).
Proof. intros H. simpl. now rewrite H. Qed.

Lemma saveTeam_get_same (st : Store) k t u :
  mapGet st k = Some t -> mapGet (saveTeam st k u) k = Some (deepMerge t u).
Proof.
  intros H. unfold saveTeam. rewrite H. apply mapSet_get_same.
Qed.

Lemma saveTeam_get_other (st : Store) k k' u :
  k' <> k -> mapGet (saveTeam st k u) k' = mapGet st k'.
Proof. intros H. unfold saveTeam. now apply mapSet_get_other. Qed.

Lemma saveTeam_same (st : Store) k t u :
  mapGet st k = Some t -> deepMerge t u = t -> saveTeam st k u = st.
Proof.
  intros H E. unfold saveTeam. rewrite H, E. now apply mapSet_same.
Qed.

End StoreLemmas.

(** ** What a request can do to the store *)

Ltac split_if :=
  match goal with
  | |- context [if ?c then _ else _] => destruct c eqn:?
  end.

Lemma register_effect st n l m e th now rnd :
  fst (register st n l m e th now rnd) = st \/
  exists k t, fst (register st n l m e th now rnd) = createTeam st k t /\
              freshTeam t.
Proof.
  unfold register.
  repeat (split_if; [now left|]).
  destruct (getTeamByName st n); [now left|].
  right. eexists _, _. split; [reflexivity|].
  repeat split.
Qed.

Lemma phase_effect st req n :
  phaseAttempted req = Some n ->
  fst (handle st req) = st \/
  exists k t u,
    requestTeamId req = JStr k /\ mapGet st k = Some t /\ transition t u /\
    fst (handle st req) = saveTeam st k u.
Proof.
  destruct req as [? ? ? ? ? ? ?|i p|i|i a|i a|i a|i a sc|i loc|?|];
    simpl; try discriminate; intros _.
  - unfold phase1_submit.
    split_if; [now left|].
    destruct (getTeamById st i) as [[k t]|] eqn:G; [|now left].
    apply getTeamById_inv in G as [-> G].
    destruct (phaseDone (phase1 t)) eqn:D; [now left|].
    destruct (onPhase t 1) eqn:P; [|now left]. cbn [negb].
    destruct p as [| | | |s| |]; try now left.
    split_if; [now left|].
    right. exists k, t, (phase1Update s). repeat split; auto.
    now constructor.
  - unfold phase2_complete.
    destruct (getTeamById st i) as [[k t]|] eqn:G; [|now left].
    apply getTeamById_inv in G as [-> G].
    destruct (phaseDone (phase2 t)) eqn:D; [now left|].
    right. exists k, t, (completePhase 2). repeat split; auto.
    now constructor.
  - unfold phase2_submit.
    destruct (getTeamById st i) as [[k t]|] eqn:G; [|now left].
    apply getTeamById_inv in G as [-> G].
    destruct (phaseDone (phase2 t)) eqn:D; [now left|].
    destruct (markAll phase2Questions a); [|now left].
    right. eexists k, t, _. repeat split; eauto.
    now constructor.
  - unfold phase3_submit.
    destruct (getTeamById st i) as [[k t]|] eqn:G; [|now left].
    apply getTeamById_inv in G as [-> G].
    destruct (onPhase t 3) eqn:P; [|now left]. cbn [negb].
    destruct (phaseDone (phase3 t)) eqn:D; [now left|].
    destruct (markAll phase3Questions a); [|now left].
    split_if; [now left|].
    right. exists k, t, (completePhase 3). repeat split; auto.
    now constructor.
  - unfold phase4_submit.
    destruct (getTeamById st i) as [[k t]|] eqn:G; [|now left].
    apply getTeamById_inv in G as [-> G].
    destruct (onPhase t 4) eqn:P; [|now left]. cbn [negb].
    destruct (phaseDone (phase4 t)) eqn:D; [now left|].
    destruct (userAnswer a); [|now left].
    split_if; [|now left].
    right. exists k, t, (completePhase 4). repeat split; auto.
    now constructor.
  - unfold phase5_complete.
    destruct (getTeamById st i) as [[k t]|] eqn:G; [|now left].
    apply getTeamById_inv in G as [-> G].
    destruct (onPhase t 5) eqn:P; [|now left]. cbn [negb].
    destruct (recalcScore a); [|now left].
    split_if; [now left|].
    right. exists k, t, (completePhase 5). repeat split; auto.
    now constructor.
  - unfold phase6_submit.
    destruct (getTeamById st i) as [[k t]|] eqn:G; [|now left].
    apply getTeamById_inv in G as [-> G].
    destruct (onPhase t 6) eqn:P; [|now left]. cbn [negb].
    destruct (phaseDone (phase6 t)) eqn:D; [now left|].
    right. exists k, t, (phase6Update loc). repeat split; auto.
    now constructor.
Qed.

(** ** The invariant of stored teams *)

Lemma phaseDone_flag (p : option PhaseRec) :
  phaseDone p = match flag p with Some b => b | None => false end.
Proof. now destruct p. Qed.

Lemma flag_mergeSlot (p : option PhaseRec) (src : option PhaseRec) :
  flag (mergeSlot p src) =
  match flag src with Some b => Some b | None => flag p end.
Proof.
  destruct src as [[[b|] ? ?]|]; simpl; try reflexivity.
  now destruct p.
Qed.

Lemma onPhase_true (t : Team) (n : Z) :
  onPhase t n = true <-> currentPhase t = Some n.
Proof.
  unfold onPhase. destruct (currentPhase t) as [c|]; [|split; discriminate].
  rewrite Z.eqb_eq. split; congruence.
Qed.

(** The invariant, spelled out. *)
Lemma teamOk_spec (t : Team) :
  teamOk t = true <->
  exists c b1 b2 b3 b4 b5 b6,
    currentPhase t = Some c /\
    flag (phase1 t) = Some b1 /\ flag (phase2 t) = Some b2 /\
    flag (phase3 t) = Some b3 /\ flag (phase4 t) = Some b4 /\
    flag (phase5 t) = Some b5 /\ flag (phase6 t) = Some b6 /\
    (1 <= c <= 7 /\
     (b1 = true -> 2 <= c) /\ (b2 = true -> 3 <= c) /\ (b3 = true -> 4 <= c) /\
     (b4 = true -> 5 <= c) /\ (b5 = true -> 6 <= c) /\ (b6 = true -> 7 <= c) /\
     (3 <= c -> b2 = true))%Z.
Proof.
  unfold teamOk.
  destruct (currentPhase t) as [c|];
    [|split; [discriminate|intros (? & ? & ? & ? & ? & ? & ? & [=] & _)]].
  destruct (flag (phase1 t)) as [b1|];
    [|split; [discriminate|intros (? & ? & ? & ? & ? & ? & ? & _ & [=] & _)]].
  destruct (flag (phase2 t)) as [b2|];
    [|split; [discriminate|intros (? & ? & ? & ? & ? & ? & ? & _ & _ & [=] & _)]].
  destruct (flag (phase3 t)) as [b3|];
    [|split; [discriminate|intros (? & ? & ? & ? & ? & ? & ? & _ & _ & _ & [=] & _)]].
  destruct (flag (phase4 t)) as [b4|];
    [|split; [discriminate
             |intros (? & ? & ? & ? & ? & ? & ? & _ & _ & _ & _ & [=] & _)]].
  destruct (flag (phase5 t)) as [b5|];
    [|split; [discriminate
             |intros (? & ? & ? & ? & ? & ? & ? & _ & _ & _ & _ & _ & [=] & _)]].
  destruct (flag (phase6 t)) as [b6|];
    [|split; [discriminate
             |intros (? & ? & ? & ? & ? & ? & ? & _ & _ & _ & _ & _ & _ & [=] & _)]].
  rewrite !andb_true_iff, !implb_true_iff, !Z.leb_le.
  split.
  - intros H. exists c, b1, b2, b3, b4, b5, b6. tauto.
  - intros (c' & x1 & x2 & x3 & x4 & x5 & x6 &
            [= <-] & [= <-] & [= <-] & [= <-] & [= <-] & [= <-] & [= <-] & H).
    tauto.
Qed.

Lemma fresh_ok (t : Team) : freshTeam t -> teamOk t = true.
Proof.
  intros (Hc & H1 & H2 & H3 & H4 & H5 & H6).
  unfold teamOk. now rewrite Hc, H1, H2, H3, H4, H5, H6.
Qed.

Ltac use_guards :=
  repeat match goal with
  | H : onPhase _ _ = true |- _ => apply onPhase_true in H
  | H : phaseDone _ = false |- _ => rewrite phaseDone_flag in H
  end.

Lemma transition_ok (t : Team) (u : TeamUpdate) :
  teamOk t = true -> transition t u -> teamOk (deepMerge t u) = true.
Proof.
  intros Hok Htr.
  apply teamOk_spec in Hok
    as (c & b1 & b2 & b3 & b4 & b5 & b6 & Hc & H1 & H2 & H3 & H4 & H5 & H6 & Hb).
  apply teamOk_spec.
  inversion Htr; subst; clear Htr; use_guards;
    cbn [deepMerge currentPhase phase1 phase2 phase3 phase4 phase5 phase6
         completePhase phase1Update phase2Update phase6Update
         u_phase1 u_phase2 u_phase3 u_phase4 u_phase5 u_phase6 u_currentPhase
         Nat.eqb];
    rewrite !flag_mergeSlot; cbn [flag completed];
    rewrite ?H1, ?H2, ?H3, ?H4, ?H5, ?H6 in *; rewrite ?Hc in *.
  all: try (destruct passed).
  all: do 7 eexists; repeat (split; [reflexivity|]).
  all: repeat match goal with H : Some _ = Some _ |- _ => injection H as H end.
  all: subst; simpl; intuition (try lia; try congruence).
  all: match goal with H : _ -> ?g |- ?g => apply H; lia end.
Qed.

Lemma handle_ok (st : Store) (req : Request) :
  storeOk st -> storeOk (fst (handle st req)).
Proof.
  intros Hst. unfold storeOk in *.
  destruct (phaseAttempted req) as [n|] eqn:Hn.
  - destruct (phase_effect st req n Hn) as [->|(k & t & u & _ & G & Htr & ->)];
      [assumption|].
    unfold saveTeam. rewrite G.
    apply Forall_mapSet; [assumption|]. simpl.
    apply transition_ok; [|assumption].
    apply mapGet_In in G.
    rewrite Forall_forall in Hst. exact (Hst _ G).
  - destruct req as [n l m e th now rnd| | | | | | | |k|]; try discriminate.
    + simpl.
      destruct (register_effect st n l m e th now rnd)
        as [->|(k & t & -> & Hf)]; [assumption|].
      apply Forall_mapSet; [assumption|]. now apply fresh_ok.
    + simpl. now apply Forall_mapDelete.
    + simpl. constructor.
Qed.

Lemma reachable_ok (st : Store) : reachable st -> storeOk st.
Proof.
  induction 1 as [|st req _ IH].
  - constructor.
  - now apply handle_ok.
Qed.

Lemma run_reachable (st : Store) (reqs : list Request) :
  reachable st -> reachable (run st reqs).
Proof.
  revert st. induction reqs as [|r rest IH]; intros st H; simpl.
  - assumption.
  - apply IH. now constructor.
Qed.

Lemma stored_team_ok (st : Store) (k : string) (t : Team) :
  reachable st -> mapGet st k = Some t -> teamOk t = true.
Proof.
  intros Hr G. apply reachable_ok in Hr. apply mapGet_In in G.
  unfold storeOk in Hr. rewrite Forall_forall in Hr. exact (Hr _ G).
Qed.



(** ** Replay and out-of-order protection *)






(** ** The phase-2 handlers and the order of phases *)

(** C1. The two phase-2 handlers never read [currentPhase]: for a team just
    registered ([currentPhase = 1], nothing completed) the completion
    request and the submission of the right answers are both answered 200
    and both save [phase2.completed = true] and [currentPhase = 3], where
    the specification asks for a state-conflict error and no mutation. *)
Theorem phase2_handlers_accept_wrong_phase :
  let st := storeAfter 0 in
  phaseNow st = Some 1%Z /\ doneNow 2 st = false /\
  (let r := handle st (Phase2Complete (JStr alphaId)) in
   status (snd r) = 200%Z /\ fst r <> st /\
   phaseNow (fst r) = Some 3%Z /\ doneNow 2 (fst r) = true) /\
  (let r := handle st (Phase2Submit (JStr alphaId) quizKey) in
   status (snd r) = 200%Z /\ fst r <> st /\
   phaseNow (fst r) = Some 3%Z /\ doneNow 2 (fst r) = true).
Proof.
  vm_compute. repeat split; discriminate.
Qed.

Lemma transition_monotone (t : Team) (u : TeamUpdate) :
  teamOk t = true -> transition t u ->
  exists c c',
    currentPhase t = Some c /\ currentPhase (deepMerge t u) = Some c' /\
    (c <= c' <= 7)%Z.
Proof.
  intros Hok Htr.
  pose proof (transition_ok t u Hok Htr) as Hok'.
  apply teamOk_spec in Hok
    as (c & b1 & b2 & b3 & b4 & b5 & b6 & Hc & H1 & H2 & H3 & H4 & H5 & H6 & Hb).
  apply teamOk_spec in Hok'
    as (c' & x1 & x2 & x3 & x4 & x5 & x6 & Hc' & _ & _ & _ & _ & _ & _ & Hb').
  exists c, c'. split; [assumption|]. split; [assumption|].
  split; [|lia].
  inversion Htr; subst; clear Htr; use_guards;
    cbn [deepMerge currentPhase completePhase phase1Update phase2Update
         phase6Update u_currentPhase] in Hc';
    rewrite ?H2 in *; rewrite ?Hc in *.
  all: try (destruct passed; cbn [u_currentPhase phase2Update] in Hc').
  all: repeat match goal with H : Some _ = Some _ |- _ => injection H as H end.
  all: subst; simpl in *; try lia.
  all: destruct (Z_lt_le_dec c 3) as [|Hge]; [lia|];
       assert (b2 = true) by (apply Hb; lia); congruence.
Qed.


(** In the stores the server can reach, no phase request lowers the
    [currentPhase] of any team. *)
Lemma currentPhase_never_decreases (st : Store) (req : Request) (n : nat)
    (k : string) (t : Team) :
  reachable st -> phaseAttempted req = Some n -> mapGet st k = Some t ->
  exists t' c c',
    mapGet (fst (handle st req)) k = Some t' /\
    currentPhase t = Some c /\ currentPhase t' = Some c' /\ (c <= c')%Z.
Proof.
  intros Hr Hn G.
  pose proof (stored_team_ok st k t Hr G) as Hok.
  destruct (phase_effect st req n Hn) as [->|(k0 & t0 & u & _ & G0 & Htr & ->)].
  - apply teamOk_spec in Hok as (c & ? & ? & ? & ? & ? & ? & Hc & _).
    exists t, c, c. repeat split; auto. lia.
  - destruct (String.eqb_spec k k0) as [->|Hne].
    + assert (t0 = t) by congruence. subst t0.
      destruct (transition_monotone t u Hok Htr) as (c & c' & Hc & Hc' & Hle).
      exists (deepMerge t u), c, c'.
      rewrite (saveTeam_get_same _ _ _ _ G). repeat split; auto. lia.
    + apply teamOk_spec in Hok as (c & ? & ? & ? & ? & ? & ? & Hc & _).
      exists t, c, c. rewrite saveTeam_get_other by assumption.
      repeat split; auto. lia.
Qed.

(** C2. A single request moves [currentPhase] from 1 to 3: the phase-2
    completion handler, called for a team that has not passed phase 1,
    saves [currentPhase = 3]; the value 2 is skipped and phase 1 stays
    uncompleted.  (No request lowers [currentPhase]:
    [currentPhase_never_decreases].) *)
Theorem phase2_complete_skips_a_phase :
  let st0 := storeAfter 0 in
  let st1 := fst (handle st0 (Phase2Complete (JStr alphaId))) in
  reachable st1 /\
  phaseNow st0 = Some 1%Z /\ phaseNow st1 = Some 3%Z /\
  doneNow 1 st1 = false /\
  status (snd (handle st1 (Phase1Submit (JStr alphaId) (JStr "test VU2050 plan"))))
  = 400%Z.
Proof.
  split.
  - constructor. apply run_reachable. constructor.
  - vm_compute. repeat split.
Qed.

(** ** Scoring in phases 2 and 5 *)

Lemma phase2_submit_below_total (st : Store) (k : string) (t : Team)
    (answers : JVal) (marks : list bool) :
  mapGet st k = Some t -> flag (phase2 t) = Some false ->
  markAll phase2Questions answers = Some marks ->
  (countTrue marks < 10)%nat ->
  fst (phase2_submit st (JStr k) answers) = st /\
  prop (body (snd (phase2_submit st (JStr k) answers))) "passed" = JBool false.
Proof.
  intros G Hf Hm Hlt.
  unfold phase2_submit.
  rewrite (getTeamById_str _ _ _ G), phaseDone_flag, Hf, Hm.
  change (List.length phase2Questions) with 10%nat.
  destruct (Nat.eqb_spec (countTrue marks) 10) as [E|_]; [lia|].
  split; [|reflexivity].
  cbn [fst]. apply (saveTeam_same _ _ _ _ G).
  destruct t as [? ? ? ? ? ? ? [[cp ? ?]|] ? ? ? ? ?]; simpl in Hf; [|discriminate].
  subst cp. reflexivity.
Qed.

Lemma phase5_complete_below_total (st : Store) (teamId answers score : JVal)
    (n : nat) :
  recalcScore answers = Some n -> (n < 3)%nat ->
  fst (phase5_complete st teamId answers score) = st.
Proof.
  intros Hs Hlt. unfold phase5_complete.
  destruct (getTeamById st teamId) as [[k t]|]; [|reflexivity].
  destruct (onPhase t 5); [|reflexivity]. cbn [negb].
  rewrite Hs. change (List.length phase5Riddles) with 3%nat.
  destruct (Nat.ltb_spec n 3); [reflexivity|lia].
Qed.

(** C5. The phase-2 completion handler marks phase 2 completed and saves
    [currentPhase = 3] for a request that carries no answers at all: nothing
    is scored on that path, whereas the submit handler on the same store
    scores an empty answer list 0/10 and changes nothing.  In phase 5 the
    score counts entries, not riddles: an answer map that names riddle 1
    three times scores 3/3 and completes the phase with riddles 2 and 3
    unanswered. *)
Theorem completion_without_every_item_correct :
  (let st := storeAfter 1 in
   let r := handle st (Phase2Complete (JStr alphaId)) in
   phaseNow st = Some 2%Z /\
   status (snd r) = 200%Z /\
   doneNow 2 (fst r) = true /\ phaseNow (fst r) = Some 3%Z /\
   fst (handle st (Phase2Submit (JStr alphaId) (JArr []))) = st /\
   prop (body (snd (handle st (Phase2Submit (JStr alphaId) (JArr []))))) "score"
   = num 0) /\
  (let st := storeAfter 4 in
   let r := handle st (Phase5Complete (JStr alphaId) riddleOneThrice JUndef) in
   phaseNow st = Some 5%Z /\
   recalcScore riddleOneThrice = Some 3%nat /\
   prop (body (snd r)) "success" = JBool true /\
   doneNow 5 (fst r) = true /\ phaseNow (fst r) = Some 6%Z).
Proof.
  vm_compute. repeat split.
Qed.

Lemma saved_phase (st : Store) (k : string) (t : Team) (n : nat) :
  mapGet st k = Some t -> (2 <= n <= 5)%nat ->
  advancedPast n (saveTeam st k (completePhase n)) k.
Proof.
  intros G Hn. exists (deepMerge t (completePhase n)).
  split; [now apply saveTeam_get_same|].
  destruct n as [|[|[|[|[|[|n]]]]]]; try lia;
    cbn [phaseOf deepMerge phase2 phase3 phase4 phase5 currentPhase];
    rewrite flag_mergeSlot; split; reflexivity.
Qed.



(** ** Phase 3: the pass mark *)

Lemma countTrue_mapIndexed (answers : JVal) (qs : list Question) (i : nat) :
  countTrue (mapIndexed (isCorrect answers) i qs) =
  List.length
    (filter (fun j =>
               match nth_error qs (j - i) with
               | Some q => strictEqNum (elemAt answers j) (correctAnswer q)
               | None => false
               end)
            (seq i (List.length qs))).
Proof.
  revert i. induction qs as [|q qs IH]; intros i; [reflexivity|].
  cbn [mapIndexed List.length seq filter].
  rewrite Nat.sub_diag. cbn [nth_error].
  assert (Hrest :
    filter (fun j =>
              match nth_error (q :: qs) (j - i) with
              | Some q0 => strictEqNum (elemAt answers j) (correctAnswer q0)
              | None => false
              end) (seq (S i) (List.length qs))
    = filter (fun j =>
                match nth_error qs (j - S i) with
                | Some q0 => strictEqNum (elemAt answers j) (correctAnswer q0)
                | None => false
                end) (seq (S i) (List.length qs))).
  { apply filter_ext_in. intros j Hj. apply in_seq in Hj.
    replace (j - i)%nat with (S (j - S i)) by lia. reflexivity. }
  rewrite Hrest.
  unfold countTrue in *. cbn [filter]. unfold isCorrect at 1.
  destruct (strictEqNum (elemAt answers i) (correctAnswer q));
    cbn [List.length]; now rewrite <- IH.
Qed.

Lemma markAll_count (qs : list Question) (answers : JVal) (marks : list bool) :
  markAll qs answers = Some marks -> countTrue marks = correctCount qs answers.
Proof.
  unfold markAll, correctCount.
  destruct qs as [|q qs]; [now intros [= <-]|].
  destruct (nullish answers); [discriminate|]. intros E.
  assert (marks = mapIndexed (isCorrect answers) 0 (q :: qs)) as ->
    by congruence.
  rewrite countTrue_mapIndexed.
  f_equal. apply filter_ext. intros j. now rewrite Nat.sub_0_r.
Qed.

Lemma markAll_indexable (qs : list Question) (answers : JVal) :
  nullish answers = false ->
  markAll qs answers = Some (mapIndexed (isCorrect answers) 0 qs).
Proof.
  intros H. unfold markAll. rewrite H. now destruct qs.
Qed.

(** C6. For a team on phase 3 that has not completed it, and a body that
    carries an [answers] value, the handler's score is the number of
    indices whose answer equals the question's [correctAnswer]; the team
    passes exactly when that score is at least 3, which saves
    [phase3.completed = true] and [currentPhase = 4]; below 3 the store is
    unchanged.  Both responses carry [phase3Questions] in full, correct
    answers included. *)
Theorem phase3_passes_from_three_of_five
    (st : Store) (teamId answers : JVal) (k : string) (team : Team) :
  getTeamById st teamId = Some (k, team) ->
  onPhase team 3 = true ->
  phaseDone (phase3 team) = false ->
  nullish answers = false ->
  let score := correctCount phase3Questions answers in
  let r := phase3_submit st teamId answers in
  status (snd r) = 200%Z /\
  prop (body (snd r)) "score" = num score /\
  prop (body (snd r)) "passed" = JBool (3 <=? score)%nat /\
  prop (body (snd r)) "questions" = JArr (map questionJson phase3Questions) /\
  map (fun q => prop (questionJson q) "correctAnswer") phase3Questions
  = map JNum [0; 1; 0; 0; 2]%Z /\
  ((3 <= score)%nat ->
   fst r = saveTeam st k (completePhase 3) /\ advancedPast 3 (fst r) k) /\
  ((score < 3)%nat -> fst r = st).
Proof.
  intros G Hp Hd Ha. cbv zeta.
  pose proof (markAll_indexable phase3Questions answers Ha) as Hm.
  rewrite <- (markAll_count _ _ _ Hm).
  unfold phase3_submit. rewrite G, Hp, Hd, Hm. cbn [negb].
  apply getTeamById_inv in G as [-> G].
  unfold MIN_SCORE.
  set (score := countTrue (mapIndexed (isCorrect answers) 0 phase3Questions)).
  destruct (Nat.ltb_spec score 3) as [Hlt|Hge].
  - destruct (Nat.leb_spec 3 score); [lia|].
    repeat split; intros; lia.
  - destruct (Nat.leb_spec 3 score); [|lia].
    repeat split; try (intros; lia).
    cbn [fst]. apply (saved_phase st k team 3 G). lia.
Qed.

(** The boundary: exactly three right answers pass, exactly two fail. *)
Lemma phase3_passes_from_three_of_five_witness :
  let st := storeAfter 2 in
  (correctCount phase3Questions threeRight = 3%nat /\
   prop (body (snd (phase3_submit st (JStr alphaId) threeRight))) "passed"
   = JBool true /\
   advancedPast 3 (fst (phase3_submit st (JStr alphaId) threeRight)) alphaId) /\
  (correctCount phase3Questions twoRight = 2%nat /\
   prop (body (snd (phase3_submit st (JStr alphaId) twoRight))) "passed"
   = JBool false /\
   fst (phase3_submit st (JStr alphaId) twoRight) = st).
Proof.
  cbv zeta. split.
  - destruct (phase3_passes_from_three_of_five
                (storeAfter 2) (JStr alphaId) threeRight alphaId
                (stored (storeAfter 2)))
      as (_ & _ & Hpass & _ & _ & Hsave & _).
    + vm_compute. reflexivity.
    + vm_compute. reflexivity.
    + vm_compute. reflexivity.
    + reflexivity.
    + split; [reflexivity|]. split; [exact Hpass|].
      apply Hsave. vm_compute. lia.
  - destruct (phase3_passes_from_three_of_five
                (storeAfter 2) (JStr alphaId) twoRight alphaId
                (stored (storeAfter 2)))
      as (_ & _ & Hpass & _ & _ & _ & Hkeep).
    + vm_compute. reflexivity.
    + vm_compute. reflexivity.
    + vm_compute. reflexivity.
    + reflexivity.
    + split; [reflexivity|]. split; [exact Hpass|].
      apply Hkeep. vm_compute. lia.
Defined.

(** ** Phase 4: the canonical answer and its alias *)




(** ** Leaderboard *)

Lemma in_firstn {A : Type} (n : nat) (l : list A) (x : A) :
  In x (firstn n l) -> In x l.
Proof.
  intros H. rewrite <- (firstn_skipn n l). apply in_or_app. now left.
Qed.

(** C9. Whatever the store holds, the leaderboard has at most 10 rows, and
    every row is the [{teamId, teamName, teamLeader}] of a stored team whose
    [phase6.completed] is true. *)
Theorem leaderboard_at_most_ten_completed (st : Store) :
  (List.length (getCompletedTeams st) <= 10)%nat /\
  (forall e, In e (getCompletedTeams st) ->
     exists k t, In (k, t) st /\ phaseDone (phase6 t) = true /\ e = entryOf t) /\
  leaderboard st = json (JArr (map entryJson (getCompletedTeams st))).
Proof.
  unfold getCompletedTeams. split; [|split].
  - apply firstn_le_length.
  - intros e He. apply in_firstn in He.
    apply in_map_iff in He as ([k t] & <- & Hin).
    apply filter_In in Hin as [Hin Hd].
    exists k, t. auto.
  - reflexivity.
Qed.

(** ** Phase 1: the prompt marker *)

Lemma startsWith_spec (s p : string) :
  startsWith s p = true <-> exists r, s = (p ++ r)%string.
Proof.
  revert s. induction p as [|a p IH]; intros s.
  - destruct s; simpl; split; eauto.
  - destruct s as [|b s]; simpl.
    + split; [discriminate|]. intros (r & H). discriminate.
    + rewrite andb_true_iff, IH. split.
      * intros (E & r & ->). apply Ascii.eqb_eq in E. subst. now exists r.
      * intros (r & [= -> ->]). split; [apply Ascii.eqb_refl|now exists r].
Qed.

Lemma includes_spec (s p : string) :
  includes s p = true <-> exists a b, s = (a ++ p ++ b)%string.
Proof.
  induction s as [|c s IH].
  - cbn [includes]. rewrite orb_false_r, startsWith_spec. split.
    + intros (r & H). now exists "", r.
    + intros ([|? a] & b & H); [|discriminate]. now exists b.
  - cbn [includes]. rewrite orb_true_iff, startsWith_spec, IH. split.
    + intros [(r & H)|(a & b & ->)].
      * now exists "", r.
      * now exists (String c a), b.
    + intros ([|c' a] & b & H).
      * left. now exists b.
      * right. injection H as -> ->. now exists a, b.
Qed.

Lemma mapString_app (f : ascii -> ascii) (a b : string) :
  mapString f (a ++ b) = (mapString f a ++ mapString f b)%string.
Proof. induction a as [|c a IH]; simpl; [reflexivity|now rewrite IH]. Qed.

Lemma mapString_app_inv (f : ascii -> ascii) (s a b : string) :
  mapString f s = (a ++ b)%string ->
  exists a' b', s = (a' ++ b')%string /\ mapString f a' = a /\ mapString f b' = b.
Proof.
  revert s. induction a as [|c a IH]; intros s H.
  - now exists "", s.
  - destruct s as [|d s]; [discriminate|].
    simpl in H. injection H as Hc H.
    destruct (IH s H) as (a' & b' & -> & Ha & Hb).
    exists (String d a'), b'. simpl. now rewrite Hc, Ha.
Qed.

(** The handler's test is the occurrence of the marker up to case. *)
Lemma includes_toUpperCase (s marker : string) :
  includes (toUpperCase s) marker = true <-> containsIgnoringCase s marker.
Proof.
  unfold containsIgnoringCase, toUpperCase. rewrite includes_spec. split.
  - intros (a & b & H).
    apply mapString_app_inv in H as (pre & rest & -> & _ & H).
    apply mapString_app_inv in H as (mid & post & -> & Hm & _).
    now exists pre, mid, post.
  - intros (pre & mid & post & -> & <-).
    exists (mapString upperChar pre), (mapString upperChar post).
    now rewrite !mapString_app.
Qed.

(** C8. For a stored team on phase 1 that has not completed it, a prompt
    text passes exactly when it contains ['VU2050'] up to case: the handler
    then stores the prompt and saves [phase1.completed = true] and
    [currentPhase = 2]; a prompt without the marker is answered with a 400
    error and the store is unchanged. *)
Theorem phase1_passes_on_marker
    (st : Store) (k : string) (team : Team) (prompt : string) :
  k <> "" ->
  mapGet st k = Some team ->
  onPhase team 1 = true ->
  phaseDone (phase1 team) = false ->
  let r := phase1_submit st (JStr k) (JStr prompt) in
  (containsIgnoringCase prompt "VU2050" ->
   snd r = json (JObj [("success", JBool true);
                       ("message", JStr "Phase 1 completed!")]) /\
   fst r = saveTeam st k (phase1Update prompt) /\
   advancedPast 1 (fst r) k /\
   exists t' p, mapGet (fst r) k = Some t' /\ phase1 t' = Some p /\
                aiPrompt p = Some prompt) /\
  (~ containsIgnoringCase prompt "VU2050" ->
   (exists m, snd r = error 400 m) /\ fst r = st).
Proof.
  intros Hk G Hp Hd. cbv zeta.
  rewrite <- includes_toUpperCase.
  unfold phase1_submit.
  assert (Htid : truthy (JStr k) = true).
  { simpl. destruct (String.eqb_spec k ""); [contradiction|reflexivity]. }
  rewrite Htid. cbn [negb orb].
  destruct prompt as [|c s].
  - cbn. split; [discriminate|]. intros _.
    split; [eexists; reflexivity|reflexivity].
  - assert (Hpr : truthy (JStr (String c s)) = true) by reflexivity.
    rewrite Hpr. cbn [negb].
    rewrite (getTeamById_str _ _ _ G), Hd, Hp. cbn [negb].
    destruct (includes (toUpperCase (String c s)) "VU2050") eqn:E; cbn [negb].
    + split; [|congruence]. intros _.
      split; [reflexivity|]. split; [reflexivity|]. cbn [fst].
      unfold advancedPast. rewrite (saveTeam_get_same _ _ _ _ G).
      split.
      * eexists. split; [reflexivity|].
        cbn [phaseOf deepMerge phase1 currentPhase phase1Update u_phase1
             u_currentPhase].
        rewrite flag_mergeSlot. split; reflexivity.
      * eexists _, _. split; [reflexivity|].
        cbn [deepMerge phase1 phase1Update u_phase1 mergeSlot].
        split; reflexivity.
    + split; [discriminate|]. intros _.
      split; [eexists; reflexivity|reflexivity].
Qed.

Lemma phase1_passes_on_marker_witness :
  let st := storeAfter 0 in
  advancedPast 1
    (fst (phase1_submit st (JStr alphaId) (JStr "test vu2050 plan"))) alphaId /\
  fst (phase1_submit st (JStr alphaId) (JStr "test VU 2050 plan")) = st.
Proof.
  cbv zeta. split.
  - apply (phase1_passes_on_marker
             (storeAfter 0) alphaId (stored (storeAfter 0)) "test vu2050 plan");
      try (vm_compute; reflexivity); try discriminate.
    exists "test ", "vu2050", " plan". split; reflexivity.
  - apply (phase1_passes_on_marker
             (storeAfter 0) alphaId (stored (storeAfter 0)) "test VU 2050 plan");
      try (vm_compute; reflexivity); try discriminate.
    intros H. apply includes_toUpperCase in H. vm_compute in H. discriminate.
Defined.

(** * Further properties of the server *)

Example toString_examples :
  map toStringJ
      [JNum (-5); JNum 0; JBool true; JStr "Bldg 2"; JArr [JStr "bldg 2"];
       JArr [JNum 1; JNull; JArr [JNum 2; JNum 3]]; JObj [("a", JNum 1)];
       JObj [("toString", JNum 1)]; JNull]
  = [Some "-5"; Some "0"; Some "true"; Some "Bldg 2"; Some "bldg 2";
     Some "1,,2,3"; Some "[object Object]"; None; None].
Proof. reflexivity. Qed.

Example stats_example :
  getStats twoTeams
  = {| totalTeams := 2; done1 := 2; done2 := 1; done3 := 1;
       done4 := 1; done5 := 1; done6 := 1 |}.
Proof. vm_compute. reflexivity. Qed.

Example validateForm_example : validateForm alphaForm = ([], true).
Proof. vm_compute. reflexivity. Qed.

(** ** What a response says about the store *)

Ltac leaf :=
  cbn [fst snd status json error serverError];
  first [ intros _; reflexivity
        | let H := fresh in intros H; exfalso; apply H; reflexivity ].

Ltac walk :=
  first [ leaf
        | match goal with
          | |- context [match ?x with _ => _ end] => destruct x
          end; walk ].

(** X1. A response whose status is not 200 (a 400, 404 or 500) comes with
    the store exactly as it was: no route writes before it reports an
    error. *)
Theorem error_response_leaves_store (st : Store) (req : Request) :
  status (snd (handle st req)) <> 200%Z -> fst (handle st req) = st.
Proof.
  destruct req as [n l m e th now rnd|i p|i|i a|i a|i a|i a sc|i loc|k|];
    cbn [handle].
  - unfold register. walk.
  - unfold phase1_submit. walk.
  - unfold phase2_complete. walk.
  - unfold phase2_submit. walk.
  - unfold phase3_submit. walk.
  - unfold phase4_submit. walk.
  - unfold phase5_complete. walk.
  - unfold phase6_submit. walk.
  - unfold admin_delete_team. leaf.
  - unfold admin_clear_all. leaf.
Qed.

Lemma error_response_leaves_store_witness :
  fst (handle (storeAfter 2) (Phase3Submit (JStr alphaId) JUndef))
  = storeAfter 2.
Proof.
  apply (error_response_leaves_store
           (storeAfter 2) (Phase3Submit (JStr alphaId) JUndef)).
  vm_compute. discriminate.
Defined.

(** ** The store as a map *)

Lemma mapSet_keys_present (st : Store) (k : string) (t t' : Team) :
  mapGet st k = Some t -> map fst (mapSet st k t') = map fst st.
Proof.
  induction st as [|[k0 t0] r IH]; simpl; [discriminate|].
  destruct (String.eqb_spec k0 k) as [->|Hne]; simpl.
  - reflexivity.
  - intros G. now rewrite IH.
Qed.

Lemma mapSet_absent (st : Store) (k : string) (t : Team) :
  mapGet st k = None -> mapSet st k t = st ++ [(k, t)].
Proof.
  induction st as [|[k0 t0] r IH]; simpl; [reflexivity|].
  destruct (String.eqb_spec k0 k) as [->|Hne]; [discriminate|].
  intros G. now rewrite IH.
Qed.

Lemma mapSet_mapSet (st : Store) (k : string) (t t' : Team) :
  mapSet (mapSet st k t) k t' = mapSet st k t'.
Proof.
  induction st as [|[k0 t0] r IH]; simpl.
  - now rewrite String.eqb_refl.
  - destruct (String.eqb_spec k0 k) as [->|Hne]; simpl.
    + now rewrite String.eqb_refl.
    + destruct (String.eqb_spec k0 k); [contradiction|]. now rewrite IH.
Qed.

Lemma mergePhase_twice (p src : PhaseRec) :
  mergePhase (mergePhase p src) src = mergePhase p src.
Proof.
  destruct p as [c a l], src as [[c'|] [a'|] [l'|]]; reflexivity.
Qed.

Lemma mergeSlot_twice (p src : option PhaseRec) :
  mergeSlot (mergeSlot p src) src = mergeSlot p src.
Proof.
  destruct src as [src|]; [|reflexivity].
  simpl. now rewrite mergePhase_twice.
Qed.

Lemma deepMerge_twice (t : Team) (u : TeamUpdate) :
  deepMerge (deepMerge t u) u = deepMerge t u.
Proof.
  unfold deepMerge.
  cbn [teamId teamName teamLeader teamMembers email theme
       phase1 phase2 phase3 phase4 phase5 phase6 currentPhase].
  rewrite !mergeSlot_twice.
  now destruct (u_currentPhase u).
Qed.

(** X2. Saving the same update twice is saving it once: [saveTeam] merges,
    it never accumulates, whether or not the id was known. *)
Theorem saveTeam_twice (st : Store) (k : string) (u : TeamUpdate) :
  saveTeam (saveTeam st k u) k u = saveTeam st k u.
Proof.
  unfold saveTeam.
  rewrite mapSet_get_same, deepMerge_twice.
  apply mapSet_mapSet.
Qed.

(** X3. [saveTeam] for an id the map does not hold does not fail: it
    appends, after every stored team, an object that carries the update and
    nothing else, so without [teamId], [teamName] or any other phase; the
    stored teams are untouched. *)
Theorem saveTeam_unknown_id (st : Store) (k : string) (u : TeamUpdate) :
  mapGet st k = None ->
  saveTeam st k u = st ++ [(k, deepMerge emptyTeam u)] /\
  teamName (deepMerge emptyTeam u) = None /\
  teamId (deepMerge emptyTeam u) = None /\
  (forall k', k' <> k -> mapGet (saveTeam st k u) k' = mapGet st k') /\
  (forall name, getTeamByName (saveTeam st k u) name = getTeamByName st name).
Proof.
  intros G. unfold saveTeam. rewrite G, (mapSet_absent _ _ _ G).
  split; [reflexivity|]. split; [reflexivity|]. split; [reflexivity|].
  split.
  - intros k' Hne. rewrite <- (mapSet_absent _ _ _ G).
    now apply mapSet_get_other.
  - intros name. unfold getTeamByName. f_equal.
    generalize (toLowerCase name) as n. intros n. clear G.
    induction st as [|e r IH]; [reflexivity|].
    simpl. destruct (sameName n (snd e)); [reflexivity|exact IH].
Qed.

Lemma saveTeam_unknown_id_witness :
  saveTeam [] "TEAM_x" (completePhase 2)
  = [("TEAM_x", deepMerge emptyTeam (completePhase 2))].
Proof.
  apply (saveTeam_unknown_id [] "TEAM_x" (completePhase 2)).
  reflexivity.
Defined.

(** ** What a phase request leaves alone *)




(** ** Registration *)





(** The two outcomes of the register handler. *)
Lemma register_cases (st : Store) (n l m e th now rnd : string) :
  let r := register st n l m e th now rnd in
  let k := ("TEAM_" ++ now ++ "_" ++ rnd)%string in
  let team := registeredTeam k n l (memberNames m) e th in
  (fst r = st /\ status (snd r) = 400%Z) \/
  (n <> "" /\ l <> "" /\ emailRegexTest e false = true /\ In th validThemes /\
   (3 <= List.length (memberNames m) <= 4)%nat /\
   getTeamByName st n = None /\
   r = (createTeam st k team,
        json (JObj [("success", JBool true);
                    ("message", JStr "Registration successful!");
                    ("team", teamJson team)]))).
Proof.
  cbv zeta. unfold register. fold (memberNames m).
  destruct (negb (nonEmpty n) || negb (nonEmpty l) || negb (nonEmpty m) ||
            negb (nonEmpty e) || negb (nonEmpty th)) eqn:F; [now left|].
  destruct (emailRegexTest e false) eqn:E; [|now left]. cbn [negb].
  destruct (existsb (String.eqb th) validThemes) eqn:T; [|now left].
  cbn [negb].
  destruct ((List.length (memberNames m) <? 3)%nat ||
            (4 <? List.length (memberNames m))%nat) eqn:M; [now left|].
  destruct (getTeamByName st n) eqn:G; [now left|].
  right.
  repeat (apply orb_false_iff in F as [F ?]).
  apply orb_false_iff in M as [M1 M2].
  apply Nat.ltb_ge in M1, M2.
  apply existsb_exists in T as (x & Hx & Ex). apply String.eqb_eq in Ex.
  subst x.
  repeat match goal with
  | H : negb (nonEmpty _) = false |- _ =>
      apply negb_false_iff in H; unfold nonEmpty in H;
      apply negb_true_iff in H; apply String.eqb_neq in H
  end.
  repeat split; auto.
Qed.





(** ** Ids and names in the stores the server can reach *)

Lemma lowerChar_twice (c : ascii) : lowerChar (lowerChar c) = lowerChar c.
Proof. destruct c as [[] [] [] [] [] [] [] []]; reflexivity. Qed.

Lemma toLowerCase_twice (s : string) :
  toLowerCase (toLowerCase s) = toLowerCase s.
Proof.
  unfold toLowerCase.
  induction s as [|c r IH]; [reflexivity|].
  cbn [mapString]. now rewrite lowerChar_twice, IH.
Qed.

Lemma mapSet_keys_in (st : Store) (k : string) (t : Team) (x : string) :
  In x (map fst (mapSet st k t)) -> x = k \/ In x (map fst st).
Proof.
  induction st as [|[k0 t0] r IH]; simpl.
  - intros [<-|[]]. now left.
  - destruct (String.eqb_spec k0 k) as [->|Hne]; simpl.
    + intros [<-|H]; auto.
    + intros [<-|H]; auto. destruct (IH H); auto.
Qed.

Lemma mapSet_keys_nodup (st : Store) (k : string) (t : Team) :
  NoDup (map fst st) -> NoDup (map fst (mapSet st k t)).
Proof.
  induction st as [|[k0 t0] r IH]; simpl; intros H.
  - constructor; [intros []|constructor].
  - inversion H as [|? ? Hnot Hr]; subst.
    destruct (String.eqb_spec k0 k) as [->|Hne]; simpl.
    + now constructor.
    + constructor; [|auto].
      intros Hin. apply mapSet_keys_in in Hin as [->|Hin]; contradiction.
Qed.

Lemma mapSet_names_in (st : Store) (k : string) (t : Team) (y : option string) :
  In y (storedNames (mapSet st k t)) -> y = teamName t \/ In y (storedNames st).
Proof.
  unfold storedNames.
  induction st as [|[k0 t0] r IH]; simpl.
  - intros [<-|[]]. now left.
  - destruct (String.eqb_spec k0 k) as [->|Hne]; simpl.
    + intros [<-|H]; auto.
    + intros [<-|H]; auto. destruct (IH H); auto.
Qed.

Lemma mapSet_names_nodup (st : Store) (k : string) (t : Team) :
  NoDup (storedNames st) -> ~ In (teamName t) (storedNames st) ->
  NoDup (storedNames (mapSet st k t)).
Proof.
  induction st as [|[k0 t0] r IH]; intros H Hnew.
  - simpl. constructor; [intros []|constructor].
  - unfold storedNames in *. simpl in *.
    inversion H as [|? ? Hnot Hr]; subst.
    destruct (String.eqb_spec k0 k) as [->|Hne]; simpl.
    + constructor; [|assumption]. tauto.
    + constructor; [|apply IH; tauto].
      intros Hin. apply mapSet_names_in in Hin as [E|Hin]; [|contradiction].
      apply Hnew. left. assumption.
Qed.

Lemma mapSet_names_present (st : Store) (k : string) (t t' : Team) :
  mapGet st k = Some t -> teamName t' = teamName t ->
  storedNames (mapSet st k t') = storedNames st.
Proof.
  unfold storedNames.
  induction st as [|[k0 t0] r IH]; simpl; [discriminate|].
  destruct (String.eqb_spec k0 k) as [->|Hne]; simpl.
  - intros [= ->] ->. reflexivity.
  - intros G E. now rewrite IH.
Qed.

Lemma mapDelete_in {A : Type} (f : string * Team -> A) (st : Store)
    (k : string) (y : A) :
  In y (map f (mapDelete st k)) -> In y (map f st).
Proof.
  induction st as [|[k0 t0] r IH]; simpl; [tauto|].
  destruct (String.eqb k0 k); simpl; [tauto|].
  intros [<-|H]; auto.
Qed.

Lemma mapDelete_nodup {A : Type} (f : string * Team -> A) (st : Store)
    (k : string) :
  NoDup (map f st) -> NoDup (map f (mapDelete st k)).
Proof.
  induction st as [|[k0 t0] r IH]; simpl; intros H; [constructor|].
  inversion H as [|? ? Hnot Hr]; subst.
  destruct (String.eqb k0 k); simpl; [assumption|].
  constructor; [|auto].
  intros Hin. apply Hnot. now apply (mapDelete_in f r k).
Qed.

Lemma name_free (st : Store) (n : string) :
  getTeamByName st n = None -> ~ In (Some (toLowerCase n)) (storedNames st).
Proof.
  unfold getTeamByName, storedNames. intros G Hin.
  destruct (find (fun e => sameName (toLowerCase n) (snd e)) st) eqn:F;
    [discriminate|].
  apply in_map_iff in Hin as (e & He & Hin).
  pose proof (find_none _ _ F _ Hin) as Hf. simpl in Hf.
  unfold sameName in Hf. rewrite He, String.eqb_refl in Hf. discriminate.
Qed.

Lemma storeWf_handle (st : Store) (req : Request) :
  storeWf st -> storeWf (fst (handle st req)).
Proof.
  intros (Hk & Hn & Hw).
  destruct (phaseAttempted req) as [n|] eqn:Hp.
  - destruct (phase_effect st req n Hp) as [->|(k & t & u & _ & G & _ & ->)];
      [now repeat split|].
    unfold saveTeam. rewrite G.
    split; [|split].
    + now rewrite (mapSet_keys_present _ _ t).
    + now rewrite (mapSet_names_present _ _ t).
    + apply Forall_mapSet; [assumption|].
      rewrite Forall_forall in Hw. exact (Hw _ (mapGet_In _ _ _ G)).
  - destruct req as [n l m e th now rnd| | | | | | | |k|]; try discriminate;
      cbn [handle].
    + destruct (register_cases st n l m e th now rnd)
        as [[-> _]|(_ & _ & _ & _ & _ & Hg & ->)]; [now repeat split|].
      cbn [fst]. unfold createTeam.
      split; [|split].
      * now apply mapSet_keys_nodup.
      * apply mapSet_names_nodup; [assumption|].
        now apply name_free.
      * apply Forall_mapSet; [assumption|].
        split; [reflexivity|].
        split; [apply startsWith_spec; now eexists|].
        eexists. split; [reflexivity|]. apply toLowerCase_twice.
    + cbn [admin_delete_team fst].
      split; [|split].
      * now apply mapDelete_nodup.
      * now apply (mapDelete_nodup (fun e => teamName (snd e))).
      * now apply Forall_mapDelete.
    + cbn [admin_clear_all fst]. repeat split; constructor.
Qed.

Lemma reachable_storeWf (st : Store) : reachable st -> storeWf st.
Proof.
  induction 1 as [|st req _ IH].
  - repeat split; constructor.
  - now apply storeWf_handle.
Qed.

Lemma reachable_wf (st : Store) :
  reachable st ->
  NoDup (map fst st) /\ NoDup (storedNames st) /\
  forall k t, In (k, t) st -> entryWf (k, t).
Proof.
  intros Hr. destruct (reachable_storeWf st Hr) as (Hk & Hn & Hw).
  split; [assumption|]. split; [assumption|].
  intros k t Hin. rewrite Forall_forall in Hw. exact (Hw _ Hin).
Qed.






(** ** Administration: deleting a team *)

Lemma mapDelete_get_other (st : Store) (k k' : string) :
  k' <> k -> mapGet (mapDelete st k) k' = mapGet st k'.
Proof.
  intros Hne.
  induction st as [|[k0 t0] r IH]; simpl; [reflexivity|].
  destruct (String.eqb_spec k0 k) as [->|Hk]; simpl.
  - destruct (String.eqb_spec k k'); [congruence|reflexivity].
  - destruct (String.eqb_spec k0 k'); [reflexivity|exact IH].
Qed.

Lemma mapGet_absent (st : Store) (k : string) :
  ~ In k (map fst st) -> mapGet st k = None.
Proof.
  induction st as [|[k0 t0] r IH]; simpl; [reflexivity|].
  intros H. destruct (String.eqb_spec k0 k) as [->|Hk]; [tauto|].
  apply IH. tauto.
Qed.

Lemma mapDelete_get_same (st : Store) (k : string) :
  NoDup (map fst st) -> mapGet (mapDelete st k) k = None.
Proof.
  induction st as [|[k0 t0] r IH]; simpl; intros H; [reflexivity|].
  inversion H as [|? ? Hnot Hr]; subst.
  destruct (String.eqb_spec k0 k) as [->|Hk]; simpl.
  - now apply mapGet_absent.
  - destruct (String.eqb_spec k0 k); [contradiction|auto].
Qed.

Lemma mapDelete_absent (st : Store) (k : string) :
  mapGet st k = None -> mapDelete st k = st.
Proof.
  induction st as [|[k0 t0] r IH]; simpl; [reflexivity|].
  destruct (String.eqb_spec k0 k) as [->|Hk]; [discriminate|].
  intros G. now rewrite IH.
Qed.

Lemma unknown_team_404 (st : Store) (req : Request) (n : nat) (k : string) :
  phaseAttempted req = Some n -> requestTeamId req = JStr k ->
  requiredFields req = true -> mapGet st k = None ->
  handle st req = (st, error 404 "Team not found").
Proof.
  intros Hn Hk Hf G.
  assert (E : getTeamById st (JStr k) = None) by (simpl; now rewrite G).
  destruct req as [? ? ? ? ? ? ?|i p|i|i a|i a|i a|i a sc|i loc|?|];
    simpl in Hn; try discriminate; simpl in Hk; subst i; cbn [handle].
  - unfold phase1_submit. cbn [requiredFields] in Hf.
    apply andb_true_iff in Hf as [F1 F2]. rewrite F1, F2. cbn [negb orb].
    now rewrite E.
  - unfold phase2_complete. now rewrite E.
  - unfold phase2_submit. now rewrite E.
  - unfold phase3_submit. now rewrite E.
  - unfold phase4_submit. now rewrite E.
  - unfold phase5_complete. now rewrite E.
  - unfold phase6_submit. now rewrite E.
Qed.

(** X9. Deleting a team, in any store the server can reach: the id is gone
    from the map, every other team is as before, and each later phase
    request for that id (with its required fields) is answered 404 'Team
    not found' without writing.  Deleting an unknown id changes nothing. *)
Theorem admin_delete_removes_team (st : Store) (k : string) :
  reachable st ->
  let st' := fst (admin_delete_team st k) in
  status (snd (admin_delete_team st k)) = 200%Z /\
  mapGet st' k = None /\
  (forall k', k' <> k -> mapGet st' k' = mapGet st k') /\
  (forall req n,
     phaseAttempted req = Some n -> requestTeamId req = JStr k ->
     requiredFields req = true ->
     handle st' req = (st', error 404 "Team not found")) /\
  (mapGet st k = None -> st' = st).
Proof.
  intros Hr. cbv zeta. cbn [admin_delete_team fst snd].
  destruct (reachable_wf st Hr) as (Hnd & _).
  assert (G : mapGet (mapDelete st k) k = None)
    by now apply mapDelete_get_same.
  split; [reflexivity|]. split; [assumption|]. split; [|split].
  - intros k' Hne. now apply mapDelete_get_other.
  - intros req n Hn Hk Hf. now apply (unknown_team_404 _ req n k).
  - apply mapDelete_absent.
Qed.

Lemma admin_delete_removes_team_witness :
  let st' := fst (admin_delete_team twoTeams alphaId) in
  mapGet st' alphaId = None /\
  mapGet st' betaId = mapGet twoTeams betaId.
Proof.
  cbv zeta.
  destruct (admin_delete_removes_team twoTeams alphaId)
    as (_ & Hgone & Hother & _).
  - apply run_reachable. apply run_reachable. constructor.
  - split; [exact Hgone|]. apply Hother. vm_compute. discriminate.
Defined.

(** ** Statistics and the leaderboard *)


Lemma getStats_fold (st : Store) (acc : Stats) :
  fold_left (fun stats e => countTeam stats (snd e)) st acc =
  {| totalTeams := totalTeams acc + List.length st;
     done1 := done1 acc
              + List.length (filter (fun e => phaseDone (phase1 (snd e))) st);
     done2 := done2 acc
              + List.length (filter (fun e => phaseDone (phase2 (snd e))) st);
     done3 := done3 acc
              + List.length (filter (fun e => phaseDone (phase3 (snd e))) st);
     done4 := done4 acc
              + List.length (filter (fun e => phaseDone (phase4 (snd e))) st);
     done5 := done5 acc
              + List.length (filter (fun e => phaseDone (phase5 (snd e))) st);
     done6 := done6 acc
              + List.length (filter (fun e => phaseDone (phase6 (snd e))) st) |}.
Proof.
  revert acc. induction st as [|[k t] r IH]; intros acc.
  - destruct acc. simpl. now rewrite !Nat.add_0_r.
  - cbn [fold_left]. rewrite IH. cbn [countTeam totalTeams done1 done2 done3
      done4 done5 done6 filter snd List.length].
    f_equal; try lia;
      match goal with
      | |- context [phaseDone ?p] => destruct (phaseDone p)
      end; cbn [bump List.length]; lia.
Qed.

(** The counters of [getStats] as counts over the store. *)
Lemma getStats_counts (st : Store) :
  getStats st =
  {| totalTeams := List.length st;
     done1 := List.length (filter (fun e => phaseDone (phase1 (snd e))) st);
     done2 := List.length (filter (fun e => phaseDone (phase2 (snd e))) st);
     done3 := List.length (filter (fun e => phaseDone (phase3 (snd e))) st);
     done4 := List.length (filter (fun e => phaseDone (phase4 (snd e))) st);
     done5 := List.length (filter (fun e => phaseDone (phase5 (snd e))) st);
     done6 := List.length (filter (fun e => phaseDone (phase6 (snd e))) st) |}.
Proof. unfold getStats. now rewrite getStats_fold. Qed.

(** X10. The leaderboard has as many rows as the statistics count teams
    with phase 6 completed, up to its cap of 10. *)
Theorem leaderboard_length_matches_stats (st : Store) :
  List.length (getCompletedTeams st) = Nat.min 10 (done6 (getStats st)).
Proof.
  rewrite getStats_counts. cbn [done6].
  unfold getCompletedTeams. now rewrite length_firstn, length_map.
Qed.










(** ** The last phase, the end of the game, and progress *)

Lemma saved_advanced (st : Store) (k : string) (t : Team) (u : TeamUpdate)
    (n : nat) :
  mapGet st k = Some t ->
  flag (phaseOf n (deepMerge t u)) = Some true ->
  currentPhase (deepMerge t u) = Some (Z.of_nat n + 1)%Z ->
  advancedPast n (saveTeam st k u) k.
Proof.
  intros G Hf Hc. exists (deepMerge t u).
  split; [now apply saveTeam_get_same|]. now split.
Qed.

Lemma filter_mapSet_length (p : string * Team -> bool) (st : Store)
    (k : string) (t : Team) :
  (List.length (filter p (mapSet st k t)) <= S (List.length (filter p st)))%nat.
Proof.
  induction st as [|[k0 t0] r IH]; simpl.
  - destruct (p (k, t)); simpl; lia.
  - destruct (String.eqb k0 k); simpl.
    + destruct (p (k, t)), (p (k0, t0)); simpl; lia.
    + destruct (p (k0, t0)); simpl; lia.
Qed.

(** X12. Phase 6 has no wrong answer: for a team on phase 6 that has not
    completed it, every location text (the empty one included) is answered
    200 with the team's name and leader, is stored as
    [phase6.locationAnswer], and saves [phase6.completed = true] and
    [currentPhase = 7]; with fewer than 10 finished teams in the store, the
    team is on the leaderboard from then on. *)
Theorem phase6_always_passes
    (st : Store) (teamId : JVal) (k : string) (team : Team) (location : string) :
  getTeamById st teamId = Some (k, team) ->
  onPhase team 6 = true ->
  phaseDone (phase6 team) = false ->
  let r := phase6_submit st teamId location in
  snd r = json (JObj [("success", JBool true);
                      ("message",
                        JStr "Congratulations! You have completed CodeHunt-2026!");
                      ("teamName", optStr (teamName team));
                      ("teamLeader", optStr (teamLeader team))]) /\
  advancedPast 6 (fst r) k /\
  (exists t' p, mapGet (fst r) k = Some t' /\ phase6 t' = Some p /\
                locationAnswer p = Some location) /\
  ((List.length (filter (fun e => phaseDone (phase6 (snd e))) st) < 10)%nat ->
   In (entryOf team) (getCompletedTeams (fst r))).
Proof.
  intros G Hp Hd. cbv zeta.
  unfold phase6_submit. rewrite G, Hp, Hd. cbn [negb fst snd].
  apply getTeamById_inv in G as [-> G].
  split; [reflexivity|]. split; [|split].
  - apply (saved_advanced st k team); [assumption| |reflexivity].
    cbn [phaseOf deepMerge phase6 phase6Update u_phase6].
    now rewrite flag_mergeSlot.
  - eexists _, _. rewrite (saveTeam_get_same _ _ _ _ G).
    split; [reflexivity|].
    cbn [deepMerge phase6 phase6Update u_phase6 mergeSlot].
    split; reflexivity.
  - intros Hlt. unfold getCompletedTeams.
    rewrite firstn_all2.
    + change (entryOf team)
        with ((fun e => entryOf (snd e))
                (k, deepMerge team (phase6Update location))).
      apply in_map. apply filter_In. split.
      * apply mapGet_In. now apply saveTeam_get_same.
      * cbn [snd deepMerge phase6 phase6Update u_phase6].
        rewrite phaseDone_flag, flag_mergeSlot. reflexivity.
    + rewrite length_map. unfold saveTeam.
      pose proof (filter_mapSet_length
                    (fun e => phaseDone (phase6 (snd e))) st k
                    (deepMerge
                       match mapGet st k with
                       | Some t => t
                       | None => emptyTeam
                       end (phase6Update location))).
      lia.
Qed.

Lemma phase6_always_passes_witness :
  advancedPast 6 (fst (phase6_submit (storeAfter 5) (JStr alphaId) "")) alphaId.
Proof.
  destruct (phase6_always_passes
           (storeAfter 5) (JStr alphaId) alphaId (stored (storeAfter 5)) "")
    as (_ & H & _).
  - vm_compute. reflexivity.
  - vm_compute. reflexivity.
  - vm_compute. reflexivity.
  - exact H.
Defined.






(** ** Phase 2: scoring, and the single-answer check *)

Lemma filter_all {A : Type} (f : A -> bool) (l : list A) :
  (forall x, In x l -> f x = true) -> filter f l = l.
Proof.
  induction l as [|x r IH]; intros H; [reflexivity|].
  cbn [filter]. rewrite (H x (or_introl eq_refl)).
  f_equal. apply IH. intros y Hy. apply H. now right.
Qed.

Lemma correctCount_full (qs : list Question) (answers : JVal) :
  correctCount qs answers = List.length qs <->
  forall i q, nth_error qs i = Some q ->
              strictEqNum (elemAt answers i) (correctAnswer q) = true.
Proof.
  unfold correctCount. split.
  - intros H i q Hq.
    assert (Hlen : List.length
                     (filter (fun i0 =>
                        match nth_error qs i0 with
                        | Some q0 => strictEqNum (elemAt answers i0) (correctAnswer q0)
                        | None => false
                        end) (seq 0 (List.length qs)))
                   = List.length (seq 0 (List.length qs)))
      by now rewrite length_seq.
    apply filter_length_forallb in Hlen.
    rewrite forallb_forall in Hlen.
    assert (Hi : In i (seq 0 (List.length qs))).
    { apply in_seq. split; [lia|]. simpl. apply nth_error_Some. congruence. }
    specialize (Hlen i Hi). now rewrite Hq in Hlen.
  - intros H. rewrite filter_all; [apply length_seq|].
    intros i Hi. apply in_seq in Hi.
    destruct (nth_error qs i) as [q|] eqn:Hq; [now apply (H i)|].
    apply nth_error_None in Hq. lia.
Qed.

Lemma phase2_all_right_passes
    (st : Store) (teamId answers : JVal) (k : string) (team : Team) :
  getTeamById st teamId = Some (k, team) ->
  phaseDone (phase2 team) = false ->
  nullish answers = false ->
  (forall i q, nth_error phase2Questions i = Some q ->
               strictEqNum (elemAt answers i) (correctAnswer q) = true) ->
  prop (body (snd (phase2_submit st teamId answers))) "passed" = JBool true /\
  advancedPast 2 (fst (phase2_submit st teamId answers)) k.
Proof.
  intros G Hd Ha Hall.
  pose proof (markAll_indexable phase2Questions answers Ha) as Hm.
  pose proof (markAll_count _ _ _ Hm) as Hcount.
  apply correctCount_full in Hall.
  unfold phase2_submit. rewrite G, Hd, Hm, Hcount, Hall.
  apply getTeamById_inv in G as [-> G].
  rewrite Nat.eqb_refl. split; [reflexivity|].
  cbn [fst]. apply (saved_phase st k team 2 G). lia.
Qed.



Lemma check_answer_verdict (i : nat) (answer : JVal) (q : Question) :
  nth_error phase2Questions i = Some q -> nullish answer = false ->
  phase2_check_answer (Some (Z.of_nat i)) answer
  = json (JObj [("success", JBool true);
                ("correct", JBool (strictEqNum answer (correctAnswer q)))]).
Proof.
  intros Hq Ha. unfold phase2_check_answer. rewrite Ha.
  assert (Hi : (i < List.length phase2Questions)%nat)
    by (apply nth_error_Some; congruence).
  destruct (Z.ltb_spec (Z.of_nat i) 0); [lia|].
  destruct (Z.leb_spec (Z.of_nat (List.length phase2Questions)) (Z.of_nat i));
    [lia|].
  cbn [orb]. now rewrite Nat2Z.id, Hq.
Qed.

(** X16. The single-answer check of phase 2 and the submit handler agree:
    for an index in range and an answer that is present, the check answers
    [correct] exactly when the submit handler marks that index right in any
    answer array that holds this answer there; so ten answers that the
    check calls correct pass phase 2 when submitted together.  An index
    outside 0..9 is answered 400, as is a missing index or answer. *)
Theorem check_answer_agrees_with_submit
    (st : Store) (teamId : JVal) (k : string) (team : Team)
    (answers : list JVal) :
  (forall i q, nth_error phase2Questions i = Some q ->
     nullish (nth i answers JUndef) = false ->
     prop (body (phase2_check_answer (Some (Z.of_nat i)) (nth i answers JUndef)))
          "correct"
     = JBool (isCorrect (JArr answers) q i)) /\
  (getTeamById st teamId = Some (k, team) ->
   phaseDone (phase2 team) = false ->
   (forall i, (i < 10)%nat ->
      prop (body (phase2_check_answer (Some (Z.of_nat i)) (nth i answers JUndef)))
           "correct" = JBool true) ->
   prop (body (snd (phase2_submit st teamId (JArr answers)))) "passed"
   = JBool true /\
   advancedPast 2 (fst (phase2_submit st teamId (JArr answers))) k) /\
  (forall i a, (i < 0 \/ 10 <= i)%Z -> nullish a = false ->
     phase2_check_answer (Some i) a = error 400 "Invalid question index") /\
  (forall a, phase2_check_answer None a
             = error 400 "questionIndex and answer are required") /\
  (forall i a, nullish a = true ->
     phase2_check_answer (Some i) a
     = error 400 "questionIndex and answer are required").
Proof.
  split; [|split; [|split; [|split]]].
  - intros i q Hq Ha. now rewrite (check_answer_verdict i _ q Hq Ha).
  - intros G Hd Hall.
    assert (Hkey : forall i q, nth_error phase2Questions i = Some q ->
              strictEqNum (elemAt (JArr answers) i) (correctAnswer q) = true).
    { intros i q Hq.
      assert (Hi : (i < 10)%nat)
        by (change 10%nat with (List.length phase2Questions);
            apply nth_error_Some; congruence).
      specialize (Hall i Hi).
      destruct (nullish (nth i answers JUndef)) eqn:Hn.
      - unfold phase2_check_answer in Hall. rewrite Hn in Hall.
        discriminate.
      - rewrite (check_answer_verdict i _ q Hq Hn) in Hall.
        cbn in Hall. cbn [elemAt]. congruence. }
    exact (phase2_all_right_passes
             st teamId (JArr answers) k team G Hd eq_refl Hkey).
  - intros i a Hi Ha. unfold phase2_check_answer. rewrite Ha.
    change (Z.of_nat (List.length phase2Questions)) with 10%Z.
    destruct (Z.ltb_spec i 0); [reflexivity|].
    destruct (Z.leb_spec 10 i); [reflexivity|lia].
  - reflexivity.
  - intros i a Ha. unfold phase2_check_answer. now rewrite Ha.
Qed.

Lemma check_answer_agrees_with_submit_witness :
  advancedPast 2
    (fst (phase2_submit (storeAfter 1) (JStr alphaId) quizKey)) alphaId.
Proof.
  destruct (check_answer_agrees_with_submit
              (storeAfter 1) (JStr alphaId) alphaId (stored (storeAfter 1))
              (map (fun q => JNum (correctAnswer q)) phase2Questions))
    as (_ & H & _).
  apply H.
  - vm_compute. reflexivity.
  - vm_compute. reflexivity.
  - intros i Hi.
    do 10 (destruct i as [|i]; [vm_compute; reflexivity|]). lia.
Defined.

(** ** Phase 5: the single-riddle check and the final count *)











(** ** Bodies of the wrong shape *)

(** X19. A body of the wrong shape ends in the handler's [catch]: for a
    stored, eligible team, a truthy prompt that is not a text (phase 1),
    no [answers] at all (phases 2 and 3), a truthy answer that is not a
    text (phase 4) and a [null] entry under a riddle id (phase 5) are each
    answered 500, and the store is left as it was. *)
Theorem wrong_shape_is_server_error
    (st : Store) (k : string) (team : Team) :
  mapGet st k = Some team ->
  (forall p, k <> "" -> onPhase team 1 = true ->
     phaseDone (phase1 team) = false ->
     truthy p = true -> (forall s, p <> JStr s) ->
     fst (phase1_submit st (JStr k) p) = st /\
     status (snd (phase1_submit st (JStr k) p)) = 500%Z) /\
  (forall a, phaseDone (phase2 team) = false -> nullish a = true ->
     fst (phase2_submit st (JStr k) a) = st /\
     status (snd (phase2_submit st (JStr k) a)) = 500%Z) /\
  (forall a, onPhase team 3 = true -> phaseDone (phase3 team) = false ->
     nullish a = true ->
     fst (phase3_submit st (JStr k) a) = st /\
     status (snd (phase3_submit st (JStr k) a)) = 500%Z) /\
  (forall a, onPhase team 4 = true -> phaseDone (phase4 team) = false ->
     truthy a = true -> (forall s, a <> JStr s) ->
     fst (phase4_submit st (JStr k) a) = st /\
     status (snd (phase4_submit st (JStr k) a)) = 500%Z) /\
  (forall key r rest sc, onPhase team 5 = true ->
     findRiddle (parseInt key) = Some r ->
     fst (phase5_complete st (JStr k) (JObj ((key, JNull) :: rest)) sc) = st /\
     status (snd (phase5_complete st (JStr k) (JObj ((key, JNull) :: rest)) sc))
     = 500%Z).
Proof.
  intros G. pose proof (getTeamById_str st k team G) as Hg.
  split; [|split; [|split; [|split]]].
  - intros p Hk Hon Hd Hp Hnt. unfold phase1_submit.
    assert (Htid : truthy (JStr k) = true).
    { simpl. destruct (String.eqb_spec k ""); [contradiction|reflexivity]. }
    rewrite Htid, Hp, Hg, Hd, Hon. cbn [negb orb].
    destruct p; try (now split). now destruct (Hnt s).
  - intros a Hd Ha. unfold phase2_submit. rewrite Hg, Hd.
    unfold markAll. cbn [phase2Questions]. rewrite Ha. now split.
  - intros a Hon Hd Ha. unfold phase3_submit. rewrite Hg, Hd, Hon.
    unfold markAll. cbn [phase3Questions negb]. rewrite Ha. now split.
  - intros a Hon Hd Ha Hnt. unfold phase4_submit. rewrite Hg, Hd, Hon.
    unfold userAnswer. rewrite Ha. cbn [negb].
    destruct a; try (now split). now destruct (Hnt s).
  - intros key r rest sc Hon Hf. unfold phase5_complete. rewrite Hg, Hon.
    unfold recalcScore.
    cbn [truthy typeofObject andb objectEntries scoreEntries negb].
    rewrite Hf. cbn [nullish]. now split.
Qed.

Lemma wrong_shape_is_server_error_witness :
  status (snd (phase4_submit (storeAfter 3) (JStr alphaId) (JNum 22)))
  = 500%Z.
Proof.
  destruct (wrong_shape_is_server_error
              (storeAfter 3) alphaId (stored (storeAfter 3)))
    as (_ & _ & _ & H & _).
  - vm_compute. reflexivity.
  - apply (H (JNum 22)).
    + vm_compute. reflexivity.
    + vm_compute. reflexivity.
    + reflexivity.
    + discriminate.
Defined.

(** ** The address pattern *)






(** ** The registration form against the register handler *)

(** X21. The registration page cannot register a team on this server: the
    body it posts has no [theme], which the register handler requires, so
    every submission of the form, valid or not, is answered 400 'All fields
    are required' and nothing is stored. *)
Theorem form_registration_lacks_theme
    (st : Store) (formData : FormData) (now rnd : string) :
  handle st (registerRequest formData now rnd)
  = (st, error 400 "All fields are required").
Proof.
  unfold registerRequest. cbn [handle]. unfold register.
  replace (negb (nonEmpty "")) with true by reflexivity.
  now rewrite orb_true_r.
Qed.




(** ** The steps of [currentPhase] *)


